(** * UserAudit.js: the inactive-and-licensed user audit, embedded in Rocq

    The script talks to four collaborators of the Apps Script runtime: the
    clock ([new Date()]), the directory ([AdminDirectory.Users.list]), the
    licensing service ([AdminLicenseManager.LicenseAssignments.get]) and the
    spreadsheet service ([SpreadsheetApp]), and it writes to [Logger].  The
    embedding threads an abstract world state through every call, lets every
    call either return or throw, and records each call and each log line in a
    trace, so that statements such as "the failed page is not requested
    again" or "no spreadsheet is created" are statements about the trace.

    Numbers are integers ([Z]); a [Date] is its time value, with [None] for
    the invalid date.  The one loop of the script, the pagination, need not
    end (a directory may hand out tokens for ever): it runs on fuel, one unit
    per page request, and the statements about it give the fuel that
    suffices. *)

From Stdlib Require Import ZArith List String Ascii Lia Bool.
From Stdlib Require Import DecimalString.
From stdpp Require Import base list.

Import ListNotations.
Local Open Scope string_scope.
Local Open Scope list_scope.
Local Open Scope Z_scope.

(** String concatenation, JavaScript's [+] on strings. *)
Infix "+++" := String.append (right associativity, at level 60).

(** ** ECMAScript time values

    A [Date] holds a time value: an integral number of milliseconds since the
    epoch, or NaN ([None]) for an invalid date.  The functions below are the
    abstract operations of ECMA-262 (section "Date Objects") that
    [getDate], [setDate] and [toISOString] are specified with. *)
Module JsDate.

Definition msPerDay : Z := 86400000.
Definition msPerHour : Z := 3600000.
Definition msPerMinute : Z := 60000.
Definition msPerSecond : Z := 1000.

Definition Day (t : Z) : Z := t / msPerDay.
Definition TimeWithinDay (t : Z) : Z := t mod msPerDay.

Definition DaysInYear (y : Z) : Z :=
  if negb (y mod 4 =? 0) then 365
  else if negb (y mod 100 =? 0) then 366
  else if negb (y mod 400 =? 0) then 365
  else 366.

Definition DayFromYear (y : Z) : Z :=
  365 * (y - 1970) + (y - 1969) / 4 - (y - 1901) / 100 + (y - 1601) / 400.

Definition TimeFromYear (y : Z) : Z := msPerDay * DayFromYear y.

(** The largest [y] with [TimeFromYear y <= t].  A year has 365.2425 days on
    average, which places the answer within one year of the estimate. *)
Definition YearFromTime (t : Z) : Z :=
  let y := 1970 + (Day t * 400) / 146097 in
  if Day t <? DayFromYear y then y - 1
  else if DayFromYear (y + 1) <=? Day t then y + 1
  else y.

Definition InLeapYear (t : Z) : Z :=
  if DaysInYear (YearFromTime t) =? 365 then 0 else 1.

Definition DayWithinYear (t : Z) : Z := Day t - DayFromYear (YearFromTime t).

(** Day number, within a year, of the first day of month [m] (0 = January). *)
Definition monthStart (m leap : Z) : Z :=
  match m with
  | 0 => 0
  | 1 => 31
  | 2 => 59 + leap
  | 3 => 90 + leap
  | 4 => 120 + leap
  | 5 => 151 + leap
  | 6 => 181 + leap
  | 7 => 212 + leap
  | 8 => 243 + leap
  | 9 => 273 + leap
  | 10 => 304 + leap
  | _ => 334 + leap
  end.

Definition MonthFromTime (t : Z) : Z :=
  let d := DayWithinYear t in
  let leap := InLeapYear t in
  if d <? 31 then 0
  else if d <? 59 + leap then 1
  else if d <? 90 + leap then 2
  else if d <? 120 + leap then 3
  else if d <? 151 + leap then 4
  else if d <? 181 + leap then 5
  else if d <? 212 + leap then 6
  else if d <? 243 + leap then 7
  else if d <? 273 + leap then 8
  else if d <? 304 + leap then 9
  else if d <? 334 + leap then 10
  else 11.

Definition DateFromTime (t : Z) : Z :=
  let d := DayWithinYear t in
  let leap := InLeapYear t in
  match MonthFromTime t with
  | 0 => d + 1
  | 1 => d - 30
  | 2 => d - 58 - leap
  | 3 => d - 89 - leap
  | 4 => d - 119 - leap
  | 5 => d - 150 - leap
  | 6 => d - 180 - leap
  | 7 => d - 211 - leap
  | 8 => d - 242 - leap
  | 9 => d - 272 - leap
  | 10 => d - 303 - leap
  | _ => d - 333 - leap
  end.

Definition HourFromTime (t : Z) : Z := (t / msPerHour) mod 24.
Definition MinFromTime (t : Z) : Z := (t / msPerMinute) mod 60.
Definition SecFromTime (t : Z) : Z := (t / msPerSecond) mod 60.
Definition msFromTime (t : Z) : Z := t mod msPerSecond.

(** [MakeDay year month date]: the day number of the first day of the month,
    plus [date - 1]; [month] may lie outside 0..11 and carries into the year. *)
Definition MakeDay (year month date : Z) : Z :=
  let ym := year + month / 12 in
  let mn := month mod 12 in
  let leap := if DaysInYear ym =? 365 then 0 else 1 in
  DayFromYear ym + monthStart mn leap + date - 1.

Definition MakeDate (day time : Z) : Z := day * msPerDay + time.

Definition maxTime : Z := 8640000000000000.

Definition TimeClip (time : Z) : option Z :=
  if maxTime <? Z.abs time then None else Some time.

(** The host's time zone: the offset of local time from UTC, in
    milliseconds, at a UTC instant and at a local instant (the two arguments
    of ECMA-262's LocalTZA). *)
Record TimeZone := {
  tzaAtUTC : Z -> Z;
  tzaAtLocal : Z -> Z
}.

Definition LocalTime (tz : TimeZone) (t : Z) : Z := t + tzaAtUTC tz t.
Definition UTC (tz : TimeZone) (t : Z) : Z := t - tzaAtLocal tz t.

Definition fixedOffset (off : Z) : TimeZone :=
  {| tzaAtUTC := fun _ => off; tzaAtLocal := fun _ => off |}.

(** A [Date] object, as its time value. *)
Definition Date := option Z.

(** [Date.prototype.getDate]: NaN for an invalid date. *)
Definition getDate (tz : TimeZone) (d : Date) : option Z :=
  match d with
  | None => None
  | Some t => Some (DateFromTime (LocalTime tz t))
  end.

(** [Date.prototype.setDate], at a numeric argument ([None] is NaN). *)
Definition setDate (tz : TimeZone) (d : Date) (dt : option Z) : Date :=
  match d with
  | None => None
  | Some t =>
      match dt with
      | None => None
      | Some dt =>
          let t := LocalTime tz t in
          let newDate :=
            MakeDate (MakeDay (YearFromTime t) (MonthFromTime t) dt)
                     (TimeWithinDay t) in
          TimeClip (UTC tz newDate)
      end
  end.

End JsDate.

(** ** Strings the script builds *)
Module JsString.

Definition quote : string := String (ascii_of_nat 34) EmptyString.

Definition digitChar (d : Z) : ascii := ascii_of_nat (48 + Z.to_nat d).

(** The last [width] decimal digits of [n], zero-padded on the left. *)
Fixpoint padDigits (width : nat) (n : Z) (acc : string) : string :=
  match width with
  | O => acc
  | S w => padDigits w (n / 10) (String (digitChar (n mod 10)) acc)
  end.

Definition pad (width : nat) (n : Z) : string := padDigits width n EmptyString.

(** A non-negative integer in a template literal, e.g. [`${users.length}`]. *)
Definition ofNat (n : nat) : string := NilZero.string_of_uint (Nat.to_uint n).

(** [split('T')[0]]: the part of a string before the first [T]. *)
Fixpoint beforeT (s : string) : string :=
  match s with
  | EmptyString => EmptyString
  | String c rest => if Ascii.eqb c "T"%char then EmptyString
                     else String c (beforeT rest)
  end.

End JsString.

(** ** Data of the directory, licensing and spreadsheet services *)

(** A thrown value: an [Error] with its [name] and [message]; for a failed
    API call, the HTTP status of the response when there was one. *)
Record Exn := {
  errName : string;
  message : string;
  httpStatus : option Z
}.

(** A probe failure is a confirmed negative when the service answered 404;
    anything else (no answer, 401, 403, 500, ...) is not. *)
Definition confirmedNotFound (e : Exn) : bool :=
  match httpStatus e with
  | Some code => code =? 404
  | None => false
  end.

Record Name := { fullName : string }.

Record User := {
  name : Name;
  primaryEmail : string;
  lastLoginTime : option string;
  creationTime : string;
  suspended : bool
}.

(** The argument of [AdminDirectory.Users.list]. *)
Record ListParams := {
  customer : string;
  query : string;
  maxResults : Z;
  pageToken : option string;
  viewType : string
}.

(** Its response: both fields may be absent. *)
Record Response := {
  users : option (list User);
  nextPageToken : option string
}.

Record LicenseAssignment := {
  la_productId : string;
  la_skuId : string;
  la_userId : string
}.

(** A spreadsheet cell value as the script passes it to the sheet. *)
Inductive Cell :=
| CString (s : string)
| CBool (b : bool)
| CUndefined.

Definition Spreadsheet := nat.
Definition Sheet := nat.

(** What a call into the runtime does: it returns or it throws. *)
Inductive Reply (A : Type) :=
| Returns (a : A)
| Throws (e : Exn).
Arguments Returns {A} a.
Arguments Throws {A} e.

(** The runtime the script runs on, over a world state [W] that every
    service may read and change. *)
Record Platform (W : Type) := {
  timeZone : JsDate.TimeZone;
  clock : W -> Z;
  Users_list : ListParams -> W -> Reply Response * W;
  LicenseAssignments_get :
    string -> string -> string -> W -> Reply LicenseAssignment * W;
  SpreadsheetApp_create : string -> W -> Reply Spreadsheet * W;
  getActiveSheet : Spreadsheet -> W -> Reply Sheet * W;
  appendRow : Sheet -> list Cell -> W -> Reply unit * W;
  setValues :
    Sheet -> Z -> Z -> Z -> Z -> list (list Cell) -> W -> Reply unit * W;
  getUrl : Spreadsheet -> W -> Reply string * W
}.
Arguments timeZone {W} _.
Arguments clock {W} _ _.
Arguments Users_list {W} _ _ _.
Arguments LicenseAssignments_get {W} _ _ _ _ _.
Arguments SpreadsheetApp_create {W} _ _ _.
Arguments getActiveSheet {W} _ _ _.
Arguments appendRow {W} _ _ _ _.
Arguments setValues {W} _ _ _ _ _ _ _ _.
Arguments getUrl {W} _ _ _.

(** Everything the script does that is visible from outside, in order. *)
Inductive Event :=
| EvNow
| EvUsersList (p : ListParams)
| EvLicenseGet (productId skuId userId : string)
| EvCreate (title : string)
| EvGetActiveSheet (ss : Spreadsheet)
| EvAppendRow (sheet : Sheet) (row : list Cell)
| EvSetValues (sheet : Sheet) (row column numRows numColumns : Z)
              (values : list (list Cell))
| EvGetUrl (ss : Spreadsheet)
| EvLog (msg : string).

(** ** The script's effects as a monad

    A computation starts in a world, ends in a world, emits a trace and
    completes normally, by a throw, or not at all within the given number of
    loop iterations. *)
Inductive Completion (A : Type) :=
| Normal (a : A)
| Throw (e : Exn)
| OutOfFuel.
Arguments Normal {A} a.
Arguments Throw {A} e.
Arguments OutOfFuel {A}.

Definition M (W A : Type) : Type := W -> Completion A * W * list Event.

Definition ret {W A} (a : A) : M W A := fun w => (Normal a, w, []).

Definition bind {W A B} (m : M W A) (f : A -> M W B) : M W B :=
  fun w =>
    match m w with
    | (Normal a, w1, t1) =>
        match f a w1 with
        | (r, w2, t2) => (r, w2, t1 ++ t2)
        end
    | (Throw e, w1, t1) => (Throw e, w1, t1)
    | (OutOfFuel, w1, t1) => (OutOfFuel, w1, t1)
    end.

Definition throw {W A} (e : Exn) : M W A := fun w => (Throw e, w, []).

Definition outOfFuel {W A} : M W A := fun w => (OutOfFuel, w, []).

(** [try { m } catch (e) { h e }] *)
Definition tryCatch {W A} (m : M W A) (h : Exn -> M W A) : M W A :=
  fun w =>
    match m w with
    | (Throw e, w1, t1) =>
        match h e w1 with
        | (r, w2, t2) => (r, w2, t1 ++ t2)
        end
    | done => done
    end.

(** A call into the runtime, recorded as [ev]. *)
Definition call {W A} (ev : Event) (op : W -> Reply A * W) : M W A :=
  fun w =>
    match op w with
    | (Returns a, w1) => (Normal a, w1, [ev])
    | (Throws e, w1) => (Throw e, w1, [ev])
    end.

Declare Scope js_scope.
Delimit Scope js_scope with js.
Notation "x <- m ;; k" := (bind m (fun x => k))
  (at level 100, m at next level, right associativity) : js_scope.
Notation "m ;;; k" := (bind m (fun _ => k))
  (at level 100, right associativity) : js_scope.
Local Open Scope js_scope.

Definition Logger_log {W} (msg : string) : M W unit :=
  fun w => (Normal tt, w, [EvLog msg]).

(** The log lines of a trace. *)
Definition logged (t : list Event) : list string :=
  flat_map (fun ev => match ev with EvLog msg => [msg] | _ => [] end) t.

(** The calls of a trace that reach the spreadsheet service. *)
Definition isSheetEvent (ev : Event) : bool :=
  match ev with
  | EvCreate _ | EvGetActiveSheet _ | EvAppendRow _ _
  | EvSetValues _ _ _ _ _ _ | EvGetUrl _ => true
  | _ => false
  end.

Definition isUsersList (ev : Event) : bool :=
  match ev with EvUsersList _ => true | _ => false end.

(** JavaScript truthiness of a page token: [undefined] and the empty string
    are falsy. *)
Definition truthy (tok : option string) : bool :=
  match tok with
  | Some s => negb (String.eqb s "")
  | None => false
  end.

(** [Date.prototype.toISOString] on a valid time value:
    [YYYY-MM-DDTHH:mm:ss.sssZ], with a sign and six digits for years outside
    0..9999. *)
Definition isoString (t : Z) : string :=
  let y := JsDate.YearFromTime t in
  (if (0 <=? y) && (y <=? 9999) then JsString.pad 4 y
   else (if y <? 0 then "-" else "+") +++ JsString.pad 6 (Z.abs y))
  +++ "-" +++ JsString.pad 2 (JsDate.MonthFromTime t + 1)
  +++ "-" +++ JsString.pad 2 (JsDate.DateFromTime t)
  +++ "T" +++ JsString.pad 2 (JsDate.HourFromTime t)
  +++ ":" +++ JsString.pad 2 (JsDate.MinFromTime t)
  +++ ":" +++ JsString.pad 2 (JsDate.SecFromTime t)
  +++ "." +++ JsString.pad 3 (JsDate.msFromTime t)
  +++ "Z".

Definition invalidTime : Exn :=
  {| errName := "RangeError"; message := "Invalid time value";
     httpStatus := None |}.

(** ** Configuration

    What the script reads from its [CONFIG] constant.  The script's
    [SKU_CATALOG] is a table of SKU identifiers for the reader; no function
    looks anything up in it. *)
Record Config := {
  TARGET_SKU_ID : string;
  PRODUCT_ID : string;
  INACTIVITY_DAYS : Z
}.

Definition CONFIG : Config :=
  {| TARGET_SKU_ID := "1010020020";
     PRODUCT_ID := "Google-Apps";
     INACTIVITY_DAYS := 365 |}.

(** ** The script *)
Section Script.

Context {W : Type}.
Variable P : Platform W.

(** [new Date()]: one reading of the clock. *)
Definition newDate : M W JsDate.Date :=
  fun w => (Normal (Some (clock P w)), w, [EvNow]).

Definition toISOString (d : JsDate.Date) : M W string :=
  match d with
  | None => throw invalidTime
  | Some t => ret (isoString t)
  end.

(** [getCutoffDate(daysAgo)] *)
Definition getCutoffDate (daysAgo : Z) : M W JsDate.Date :=
  date <- newDate ;;
  ret (JsDate.setDate (timeZone P) date
         (option_map (fun d => d - daysAgo)
                     (JsDate.getDate (timeZone P) date))).

Definition listParams (query : string) (pageToken : option string)
  : ListParams :=
  {| customer := "my_customer";
     query := query;
     maxResults := 500;
     pageToken := pageToken;
     viewType := "domain_public" |}.

(** How one turn of the [do ... while] body ends. *)
Inductive Turn :=
| Proceed (users : list User) (pageToken : option string)
| Broke (users : list User).

(** The [do { try {...} catch (e) {...; break} } while (pageToken)] loop of
    [getInactiveUsers]; [fuel] bounds the number of page requests. *)
Fixpoint listLoop (fuel : nat) (query : string) (users : list User)
    (pageToken : option string) : M W (list User) :=
  match fuel with
  | O => outOfFuel
  | S fuel' =>
      turn <-
        tryCatch
          (response <- call (EvUsersList (listParams query pageToken))
                            (Users_list P (listParams query pageToken)) ;;
           ret (Proceed
                  match response with
                  | {| users := Some page |} => users ++ page
                  | {| users := None |} => users
                  end
                  (nextPageToken response)))
          (fun e =>
             Logger_log ("Error listing users: " +++ message e) ;;;
             ret (Broke users)) ;;
      match turn with
      | Broke users => ret users
      | Proceed users pageToken =>
          if truthy pageToken then listLoop fuel' query users pageToken
          else ret users
      end
  end.

(** [getInactiveUsers(cutoffDate)] *)
Definition getInactiveUsers (fuel : nat) (cutoffDate : JsDate.Date)
  : M W (list User) :=
  iso <- toISOString cutoffDate ;;
  let formattedDate := JsString.beforeT iso in
  iso <- toISOString cutoffDate ;;
  let query := "lastLoginTime < " +++ JsString.quote +++ iso
               +++ JsString.quote in
  listLoop fuel query [] None.

(** [hasLicense(userId, productId, skuId)] *)
Definition hasLicense (userId productId skuId : string) : M W bool :=
  tryCatch
    (license <- call (EvLicenseGet productId skuId userId)
                     (LicenseAssignments_get P productId skuId userId) ;;
     ret true)
    (fun e => ret false).

(** [Array.prototype.filter] with an effectful callback: elements are
    visited in order, a throw of the callback ends the visit. *)
Fixpoint Array_filter {A} (f : A -> M W bool) (l : list A) : M W (list A) :=
  match l with
  | [] => ret []
  | x :: rest =>
      keep <- f x ;;
      kept <- Array_filter f rest ;;
      ret (if keep then x :: kept else kept)
  end.

Definition headerRow : list Cell :=
  [CString "Name"; CString "Email"; CString "Last Login Time";
   CString "Creation Time"; CString "Suspended"].

Definition userRow (user : User) : list Cell :=
  [CString (fullName (name user));
   CString (primaryEmail user);
   match lastLoginTime user with
   | Some t => CString t
   | None => CUndefined
   end;
   CString (creationTime user);
   CBool (suspended user)].

Definition sheetTitle : string := "Inactive Enterprise Plus Users Audit".

(** [rows[0].length] *)
Definition firstRowLength (rows : list (list Cell)) : Z :=
  match rows with
  | [] => 0
  | r :: _ => Z.of_nat (length r)
  end.

(** [exportToSheet(users)] *)
Definition exportToSheet (users : list User) : M W unit :=
  ss <- call (EvCreate sheetTitle) (SpreadsheetApp_create P sheetTitle) ;;
  sheet <- call (EvGetActiveSheet ss) (getActiveSheet P ss) ;;
  call (EvAppendRow sheet headerRow) (appendRow P sheet headerRow) ;;;
  let rows := map userRow users in
  (if 0 <? Z.of_nat (length rows)
   then call (EvSetValues sheet 2 1 (Z.of_nat (length rows))
                          (firstRowLength rows) rows)
             (setValues P sheet 2 1 (Z.of_nat (length rows))
                        (firstRowLength rows) rows)
   else ret tt) ;;;
  url <- call (EvGetUrl ss) (getUrl P ss) ;;
  Logger_log ("Report generated: " +++ url).

(** [auditInactiveEnterpriseUsers()], over the configuration it reads. *)
Definition auditInactiveEnterpriseUsers (cfg : Config) (fuel : nat)
  : M W unit :=
  inactiveDate <- getCutoffDate (INACTIVITY_DAYS cfg) ;;
  iso <- toISOString inactiveDate ;;
  Logger_log ("Auditing users inactive since: " +++ iso) ;;;
  inactiveUsers <- getInactiveUsers fuel inactiveDate ;;
  Logger_log ("Found " +++ JsString.ofNat (length inactiveUsers)
              +++ " inactive users.") ;;;
  targetUsers <-
    Array_filter
      (fun user => hasLicense (primaryEmail user) (PRODUCT_ID cfg)
                              (TARGET_SKU_ID cfg))
      inactiveUsers ;;
  Logger_log ("Found " +++ JsString.ofNat (length targetUsers)
              +++ " users with Target License and Inactive.") ;;;
  if 0 <? Z.of_nat (length targetUsers)
  then exportToSheet targetUsers
  else Logger_log "No matching users found.".

End Script.

(** ** A reference runtime

    An in-memory runtime to run the script against: a clock that every
    service call advances, a directory that answers page requests from a
    script of replies, a licensing service that answers from a table, and
    spreadsheets kept as grids of cells. *)
Module Ref.

Definition Grid := list (list Cell).

Record World := {
  now : Z;
  latency : Z;
  directory : list (Reply Response);
  assignments : list (string * Reply LicenseAssignment);
  createFails : option Exn;
  writeFails : option Exn;
  sheets : list Grid
}.

Definition tick (w : World) : World :=
  {| now := now w + latency w;
     latency := latency w;
     directory := directory w;
     assignments := assignments w;
     createFails := createFails w;
     writeFails := writeFails w;
     sheets := sheets w |}.

Definition withDirectory (d : list (Reply Response)) (w : World) : World :=
  {| now := now w;
     latency := latency w;
     directory := d;
     assignments := assignments w;
     createFails := createFails w;
     writeFails := writeFails w;
     sheets := sheets w |}.

Definition withSheets (s : list Grid) (w : World) : World :=
  {| now := now w;
     latency := latency w;
     directory := directory w;
     assignments := assignments w;
     createFails := createFails w;
     writeFails := writeFails w;
     sheets := s |}.

Definition apiError (status : Z) (msg : string) : Exn :=
  {| errName := "GoogleJsonResponseException"; message := msg;
     httpStatus := Some status |}.

Definition transportError (msg : string) : Exn :=
  {| errName := "Exception"; message := msg; httpStatus := None |}.

Definition notFound : Exn :=
  apiError 404 "User does not have a license for specified sku and product".

Definition list_ (p : ListParams) (w : World) : Reply Response * World :=
  match directory w with
  | [] => (Throws (transportError "Service unavailable"), tick w)
  | r :: rest => (r, tick (withDirectory rest w))
  end.

Fixpoint lookupAssignment (userId : string)
    (table : list (string * Reply LicenseAssignment))
  : Reply LicenseAssignment :=
  match table with
  | [] => Throws notFound
  | (u, r) :: rest =>
      if String.eqb u userId then r else lookupAssignment userId rest
  end.

Definition get (productId skuId userId : string) (w : World)
  : Reply LicenseAssignment * World :=
  (lookupAssignment userId (assignments w), tick w).

Definition create (title : string) (w : World) : Reply Spreadsheet * World :=
  match createFails w with
  | Some e => (Throws e, tick w)
  | None => (Returns (length (sheets w)),
             tick (withSheets (sheets w ++ [[]]) w))
  end.

Definition activeSheet (ss : Spreadsheet) (w : World) : Reply Sheet * World :=
  (Returns ss, w).

Definition noSuchSheet : Exn := transportError "No such sheet".

(** Replace element [n] of [l] by [f] of it, if there is one. *)
Fixpoint update {A} (n : nat) (f : A -> A) (l : list A) : list A :=
  match l, n with
  | [], _ => []
  | x :: rest, O => f x :: rest
  | x :: rest, S k => x :: update k f rest
  end.

Definition append (sheet : Sheet) (row : list Cell) (w : World)
  : Reply unit * World :=
  match writeFails w with
  | Some e => (Throws e, tick w)
  | None =>
      if Nat.ltb sheet (length (sheets w))
      then (Returns tt,
            tick (withSheets (update sheet (fun g => g ++ [row]) (sheets w)) w))
      else (Throws noSuchSheet, tick w)
  end.

Definition blank : Cell := CString "".

(** Store [x] at index [n] of [l], padding with [d] when [l] is shorter. *)
Fixpoint store {A} (d : A) (n : nat) (x : A) (l : list A) : list A :=
  match n, l with
  | O, [] => [x]
  | O, _ :: rest => x :: rest
  | S k, [] => d :: store d k x []
  | S k, y :: rest => y :: store d k x rest
  end.

(** Store the values [xs] from index [n] on. *)
Fixpoint storeFrom {A} (d : A) (n : nat) (xs : list A) (l : list A)
  : list A :=
  match xs with
  | [] => l
  | x :: rest => storeFrom d (S n) rest (store d n x l)
  end.

(** Merge the cells [vals] into [row] from column index [c] on. *)
Definition writeCells (c : nat) (vals row : list Cell) : list Cell :=
  storeFrom blank c vals row.

(** Write the block [values] with its top-left corner at row index [r],
    column index [c] (both from 0). *)
Fixpoint writeBlock (r c : nat) (values : list (list Cell)) (g : Grid)
  : Grid :=
  match values with
  | [] => g
  | vals :: rest =>
      writeBlock (S r) c rest
        (store [] r (writeCells c vals (nth r g [])) g)
  end.

Definition dimensionsMatch (numRows numColumns : Z)
    (values : list (list Cell)) : bool :=
  (Z.of_nat (length values) =? numRows)
  && forallb (fun row => Z.of_nat (length row) =? numColumns) values.

Definition badRange : Exn :=
  transportError "The data does not match the dimensions of the range".

Definition write (sheet : Sheet) (row column numRows numColumns : Z)
    (values : list (list Cell)) (w : World) : Reply unit * World :=
  match writeFails w with
  | Some e => (Throws e, tick w)
  | None =>
      if (1 <=? row) && (1 <=? column) && (1 <=? numRows)
         && (1 <=? numColumns)
         && dimensionsMatch numRows numColumns values
         && Nat.ltb sheet (length (sheets w))
      then (Returns tt,
            tick (withSheets
                    (update sheet
                       (writeBlock (Z.to_nat (row - 1))
                                   (Z.to_nat (column - 1)) values)
                       (sheets w)) w))
      else (Throws badRange, tick w)
  end.

Definition urlOf (ss : Spreadsheet) : string :=
  "https://docs.google.com/spreadsheets/d/" +++ JsString.ofNat ss.

Definition url (ss : Spreadsheet) (w : World) : Reply string * World :=
  (Returns (urlOf ss), w).

Definition platform (tz : JsDate.TimeZone) : Platform World :=
  {| timeZone := tz;
     clock := now;
     Users_list := list_;
     LicenseAssignments_get := get;
     SpreadsheetApp_create := create;
     getActiveSheet := activeSheet;
     appendRow := append;
     setValues := write;
     getUrl := url |}.

Definition utc : Platform World := platform (JsDate.fixedOffset 0).

(** Sample data. *)
Definition user (i : nat) : User :=
  {| name := {| fullName := "User " +++ JsString.ofNat i |};
     primaryEmail := "u" +++ JsString.ofNat i +++ "@x.com";
     lastLoginTime := Some "2022-01-01T00:00:00.000Z";
     creationTime := "2020-01-01T00:00:00.000Z";
     suspended := false |}.

Definition usersFrom (start count : nat) : list User :=
  map user (seq start count).

Definition page (us : list User) (tok : option string) : Reply Response :=
  Returns {| users := Some us; nextPageToken := tok |}.

Definition licence (u : User) : string * Reply LicenseAssignment :=
  (primaryEmail u,
   Returns {| la_productId := "Google-Apps"; la_skuId := "1010020020";
              la_userId := primaryEmail u |}).

Definition world (t : Z) (dir : list (Reply Response))
    (table : list (string * Reply LicenseAssignment)) : World :=
  {| now := t; latency := 250; directory := dir; assignments := table;
     createFails := None; writeFails := None; sheets := [] |}.

End Ref.

(** ** Vocabulary of the statements *)

(** [n] calendar days before the instant [t], in the zone [tz]: the same
    local wall-clock time on the local date [n] days earlier, as a UTC time
    value. *)
Definition daysBefore (tz : JsDate.TimeZone) (n t : Z) : Z :=
  JsDate.UTC tz (JsDate.LocalTime tz t - n * JsDate.msPerDay).

(** The query [getInactiveUsers] sends for a cutoff with time value [t]. *)
Definition cutoffQuery (t : Z) : string :=
  "lastLoginTime < " +++ JsString.quote +++ isoString t +++ JsString.quote.

(** The users a response carries: none when [users] is absent. *)
Definition pageItems (r : Response) : list User :=
  match users r with
  | Some page => page
  | None => []
  end.

(** All users of a sequence of responses, page by page. *)
Definition items (rs : list Response) : list User := flat_map pageItems rs.

(** The requests that fetch the pages [rs], the first with token [tok], each
    next one with the token of the response before it. *)
Fixpoint requests (q : string) (tok : option string) (rs : list Response)
  : list Event :=
  match rs with
  | [] => []
  | r :: rest =>
      EvUsersList (listParams q tok) :: requests q (nextPageToken r) rest
  end.

(** The token in hand after the pages [rs]. *)
Fixpoint tokenAfter (tok : option string) (rs : list Response)
  : option string :=
  match rs with
  | [] => tok
  | r :: rest => tokenAfter (nextPageToken r) rest
  end.

Definition countOf (p : Event -> bool) (t : list Event) : nat :=
  length (List.filter p t).

Definition isNow (ev : Event) : bool :=
  match ev with EvNow => true | _ => false end.

Definition isLog (ev : Event) : bool :=
  match ev with EvLog _ => true | _ => false end.

(** A request of [AdminDirectory.Users.list] carries the query [q]. *)
Definition asksFor (q : string) (ev : Event) : Prop :=
  match ev with
  | EvUsersList p => query p = q
  | _ => True
  end.

Definition completion {W A} (r : Completion A * W * list Event)
  : Completion A := fst (fst r).

Definition trace {W A} (r : Completion A * W * list Event) : list Event :=
  snd r.

Definition worldAfter {W A} (r : Completion A * W * list Event) : W :=
  snd (fst r).

(** [m], with the trace [t] of what ran before it put in front. *)
Definition after {W A} (t : list Event) (r : Completion A * W * list Event)
  : Completion A * W * list Event :=
  match r with
  | (c, w, t') => (c, w, t ++ t')
  end.

(** The licence probes of the run for the candidates [us], in order. *)
Definition probeCalls (cfg : Config) (us : list User) : list Event :=
  map (fun u => EvLicenseGet (PRODUCT_ID cfg) (TARGET_SKU_ID cfg)
                             (primaryEmail u)) us.

(** The two count lines of the run's log. *)
Definition foundInactive (us : list User) : string :=
  "Found " +++ JsString.ofNat (length us) +++ " inactive users.".

Definition foundTarget (ts : list User) : string :=
  "Found " +++ JsString.ofNat (length ts)
  +++ " users with Target License and Inactive.".

Section Vocabulary.

Context {W : Type}.
Variable P : Platform W.

(** From the world [w] and the token [tok], the directory answers the
    successive page requests for [q] with the responses [rs], each carrying
    a token for the next page, and is then in the world [w']. *)
Inductive Pages (q : string)
  : W -> option string -> list Response -> W -> Prop :=
| Pages_nil w tok : Pages q w tok [] w
| Pages_cons w tok r w1 rs w2 :
    Users_list P (listParams q tok) w = (Returns r, w1) ->
    truthy (nextPageToken r) = true ->
    Pages q w1 (nextPageToken r) rs w2 ->
    Pages q w tok (r :: rs) w2.

(** The licence probe of the run for one candidate. *)
Definition probe (cfg : Config) (user : User) : M W bool :=
  hasLicense P (primaryEmail user) (PRODUCT_ID cfg) (TARGET_SKU_ID cfg).

(** Step 3 of [auditInactiveEnterpriseUsers]: export or report no match. *)
Definition exportStep (targetUsers : list User) : M W unit :=
  if 0 <? Z.of_nat (length targetUsers)
  then exportToSheet P targetUsers
  else Logger_log "No matching users found.".

(** Steps 2 and 3 of [auditInactiveEnterpriseUsers], from the log line that
    follows the fetch on. *)
Definition filterAndExport (cfg : Config) (inactiveUsers : list User)
  : M W unit :=
  Logger_log ("Found " +++ JsString.ofNat (length inactiveUsers)
              +++ " inactive users.") ;;;
  targetUsers <- Array_filter (probe cfg) inactiveUsers ;;
  Logger_log ("Found " +++ JsString.ofNat (length targetUsers)
              +++ " users with Target License and Inactive.") ;;;
  exportStep targetUsers.


End Vocabulary.

(** An event that may follow the one reading of the clock in a run whose
    cutoff query is [q]: not another reading of the clock, and, if it is a
    directory request, one that carries [q]. *)
Definition laterEvent (q : string) (ev : Event) : Prop :=
  isNow ev = false /\ asksFor q ev.

(** The header row as the specification spells it, to compare with
    [headerRow]. *)
Definition specHeaderRow : list Cell :=
  [CString "Name"; CString "Email"; CString "LastLoginTime";
   CString "CreationTime"; CString "Suspended"].

(** ** Sample worlds of the reference runtime *)
Module Sample.

Definition t0 : Z := 1700000000000.

(** [t0] less 365 days. *)
Definition cutoff : Z := 1668464000000.

Definition idle : Ref.World := Ref.world t0 [] [].

Definition withDays (n : Z) : Config :=
  {| TARGET_SKU_ID := TARGET_SKU_ID CONFIG;
     PRODUCT_ID := PRODUCT_ID CONFIG;
     INACTIVITY_DAYS := n |}.

(** Three pages of 500, 500 and 37 users, the last without a token. *)
Definition threePages : Ref.World :=
  Ref.world t0
    [Ref.page (Ref.usersFrom 0 500) (Some "page-2");
     Ref.page (Ref.usersFrom 500 500) (Some "page-3");
     Ref.page (Ref.usersFrom 1000 37) None]
    [].

Definition firstPage : Response :=
  {| users := Some (Ref.usersFrom 0 500); nextPageToken := Some "page-2" |}.

Definition secondPage : Response :=
  {| users := Some (Ref.usersFrom 500 500);
     nextPageToken := Some "page-3" |}.

Definition thirdPage : Response :=
  {| users := Some (Ref.usersFrom 1000 37); nextPageToken := None |}.

Definition backendError : Exn := Ref.apiError 503 "Backend Error".

(** The second page request fails. *)
Definition secondPageFails : Ref.World :=
  Ref.world t0 [Returns firstPage; Throws backendError] [].

(** A page with a token and no [users] field, then a page of two users. *)
Definition emptyThenTwo : Ref.World :=
  Ref.world t0
    [Returns {| users := None; nextPageToken := Some "next" |};
     Ref.page (Ref.usersFrom 0 2) None]
    [].

Definition connectionReset : Exn := Ref.transportError "Connection reset".

(** Ten candidates; 2, 5 and 9 hold the licence; the probe of candidate 4
    fails with [failure]. *)
Definition tenCandidates (failure : Exn) : Ref.World :=
  Ref.world t0
    [Ref.page (Ref.usersFrom 1 10) None]
    [Ref.licence (Ref.user 2); Ref.licence (Ref.user 5);
     Ref.licence (Ref.user 9);
     (primaryEmail (Ref.user 4), Throws failure)].

(** Three candidates, none licensed. *)
Definition noneLicensed : Ref.World :=
  Ref.world t0 [Ref.page (Ref.usersFrom 0 3) None] [].

Definition quotaExceeded : Exn :=
  Ref.transportError "Service Spreadsheets failed".

(** Two candidates of which [holder] is licensed; creating a spreadsheet
    fails. *)
Definition exportFails (holder : nat) : Ref.World :=
  {| Ref.now := t0; Ref.latency := 250;
     Ref.directory := [Ref.page (Ref.usersFrom 0 2) None];
     Ref.assignments := [Ref.licence (Ref.user holder)];
     Ref.createFails := Some quotaExceeded;
     Ref.writeFails := None;
     Ref.sheets := [] |}.

(** Three candidates of which the second holds the licence. *)
Definition oneOfThree : Ref.World :=
  Ref.world t0 [Ref.page (Ref.usersFrom 0 3) None]
            [Ref.licence (Ref.user 1)].

(** A zone one hour ahead of UTC until 2023-03-26T01:00Z and two hours ahead
    from then on. *)
Definition switch : Z := 1679792400000.

Definition summerTime : JsDate.TimeZone :=
  {| JsDate.tzaAtUTC := fun t => if t <? switch then 3600000 else 7200000;
     JsDate.tzaAtLocal :=
       fun t => if t <? switch + 7200000 then 3600000 else 7200000 |}.

(** 2023-03-27T10:00Z, noon in that zone. *)
Definition afterSwitch : Ref.World := Ref.world 1679911200000 [] [].

(** The two matches of the specification's export example. *)
Definition matchA : User :=
  {| name := {| fullName := "A" |};
     primaryEmail := "a@x.com";
     lastLoginTime := Some "2022-01-01";
     creationTime := "2020-01-01";
     suspended := false |}.

Definition matchB : User :=
  {| name := {| fullName := "B" |};
     primaryEmail := "b@x.com";
     lastLoginTime := None;
     creationTime := "2021-06-30";
     suspended := true |}.

End Sample.

(** * The rest of the script *)

(** ** The SKU catalog

    [SKU_CATALOG] is an object literal: product id to an object from licence
    name to SKU id.  An object literal with distinct keys is the association
    list of its entries; [property] is property access, [None] for
    [undefined]. *)
Definition SKU_CATALOG : list (string * list (string * string)) :=
  [("Google-Apps",
      [
       ("Enterprise Plus", "1010020020");
       ("Enterprise Standard", "1010020028");
       ("Business Starter", "1010020027");
       ("Business Standard", "1010020028");
       ("Business Plus", "1010020025");
       ("Enterprise Essentials", "1010060003");
       ("Essentials Starter", "1010060001");
       ("Cloud Identity Free", "1010010001");
       ("Cloud Identity Premium", "1010050001");
       ("Education Plus Legacy (Student)", "1010310003");
       ("Google-Apps-For-Education", "101031");
       ("Google-Vault", "1010330003");
       ("Google-Vault-Former-Employee", "1010330004");
       ("Other_1010020029", "1010020029");
       ("Other_1010020026", "1010020026");
       ("Other_1010060005", "1010060005");
       ("Other_1010020030", "1010020030");
       ("Other_1010020031", "1010020031");
       ("Other_1010020034", "1010020034");
       ("Other_101047", "101047");
       ("Other_1010470008", "1010470008");
       ("Other_1010020035", "1010020035");
       ("Other_1010020036", "1010020036");
       ("Other_1010070001", "1010070001");
       ("Other_1010070004", "1010070004");
       ("Other_101034", "101034");
       ("Other_1010340007", "1010340007");
       ("Other_101031", "101031");
       ("Other_1010310005", "1010310005");
       ("Other_1010310006", "1010310006");
       ("Other_1010310007", "1010310007");
       ("Other_1010310008", "1010310008");
       ("Other_1010310009", "1010310009");
       ("Other_1010310010", "1010310010");
       ("Other_101037", "101037");
       ("Other_1010370001", "1010370001");
       ("Other_1010470004", "1010470004");
       ("Other_1010470005", "1010470005");
       ("Other_1010310002", "1010310002");
       ("Other_101038", "101038");
       ("Other_1010380001", "1010380001");
       ("Other_1010380002", "1010380002");
       ("Other_1010380003", "1010380003");
       ("Other_101001", "101001");
       ("Other_101005", "101005");
       ("Other_101033", "101033");
       ("Other_1010330002", "1010330002");
       ("Other_1010340004", "1010340004");
       ("Other_1010340001", "1010340001");
       ("Other_1010340005", "1010340005");
       ("Other_1010340006", "1010340006");
       ("Other_1010340003", "1010340003");
       ("Other_1010340002", "1010340002")])].

Fixpoint property {A} (key : string) (obj : list (string * A)) : option A :=
  match obj with
  | [] => None
  | (k, v) :: rest => if String.eqb k key then Some v else property key rest
  end.

(** [SKU_CATALOG[productId][name]] *)
Definition catalogSku (productId name : string) : option string :=
  match property productId SKU_CATALOG with
  | Some skus => property name skus
  | None => None
  end.

(** The entries the catalog lists for a product. *)
Definition catalogEntries (productId : string) : list (string * string) :=
  match property productId SKU_CATALOG with
  | Some skus => skus
  | None => []
  end.

(** The names under which the catalog lists the SKU id [sku] of a product. *)
Definition catalogNames (productId sku : string) : list string :=
  match property productId SKU_CATALOG with
  | Some skus =>
      map fst (List.filter (fun entry => String.eqb (snd entry) sku) skus)
  | None => []
  end.

Definition isDigit (c : ascii) : bool :=
  (48 <=? nat_of_ascii c)%nat && (nat_of_ascii c <=? 57)%nat.

Definition allDigits (s : string) : bool :=
  forallb isDigit (list_ascii_of_string s).

(** ** The two helper functions *)
Section Helpers.

Context {W : Type}.

(** [AdminLicenseManager.LicenseAssignments.listForProduct], the one call of
    the helpers.  The trace has no event for it: what it does shows in the
    world. *)
Variable listForProduct :
  string -> string -> W -> Reply (list LicenseAssignment) * W.

Definition unrecorded {A} (op : W -> Reply A * W) : M W A :=
  fun w =>
    match op w with
    | (Returns a, w1) => (Normal a, w1, [])
    | (Throws e, w1) => (Throw e, w1, [])
    end.

(** [listAllSkus()] *)
Definition listAllSkus : M W unit :=
  tryCatch
    (Logger_log ("To find your SKU ID, the easiest way is to check a user "
                 +++ "who you know has the license:") ;;;
     Logger_log "Run: checkUserLicense('user@domain.com')")
    (fun e => Logger_log (message e)).

(** [checkUserLicense(userEmail)] *)
Definition checkUserLicense (userEmail : string) : M W unit :=
  tryCatch
    (assignments <- unrecorded (listForProduct "Google-Apps" "my_customer") ;;
     Logger_log ("Checking licenses for " +++ userEmail +++ "..."))
    (fun e => Logger_log (message e)).

End Helpers.

(** ** Vocabulary of the further statements *)

(** The page tokens of the directory requests of a trace, in order. *)
Definition requestTokens (t : list Event) : list (option string) :=
  flat_map (fun ev => match ev with
                      | EvUsersList p => [pageToken p]
                      | _ => []
                      end) t.

(** The tokens that fetch the pages [rs], one after the other: [tok] for the
    first, then for each next page the token of the response before it. *)
Fixpoint tokenChain (tok : option string) (rs : list Response)
  : list (option string) :=
  match rs with
  | [] => []
  | r :: rest => tok :: tokenChain (nextPageToken r) rest
  end.

(** A directory request as [getInactiveUsers] builds it for the query [q]. *)
Definition wellFormedRequest (q : string) (ev : Event) : Prop :=
  match ev with
  | EvUsersList p =>
      customer p = "my_customer" /\ query p = q /\ maxResults p = 500
      /\ viewType p = "domain_public"
  | _ => True
  end.

(** What [getInactiveUsers] may emit: directory requests and log lines. *)
Definition fetchEvent (ev : Event) : bool := isUsersList ev || isLog ev.

(** A bulk write whose range is the block of its data, from row 2, column 1,
    five columns wide. *)
Definition rangeFitsData (ev : Event) : Prop :=
  match ev with
  | EvSetValues _ row column numRows numColumns values =>
      row = 2 /\ column = 1 /\ numColumns = 5
      /\ numRows = Z.of_nat (length values) /\ 1 <= numRows
      /\ Forall (fun r => Z.of_nat (length r) = numColumns) values
  | _ => True
  end.

Definition errorLine (e : Exn) : string :=
  "Error listing users: " +++ message e.

Definition auditingLine (t : Z) : string :=
  "Auditing users inactive since: " +++ isoString t.

Definition reportLine (url : string) : string :=
  "Report generated: " +++ url.

(** The year part of an ISO string, as [isoString] writes it. *)
Definition isoYear (y : Z) : string :=
  if (0 <=? y) && (y <=? 9999) then JsString.pad 4 y
  else (if y <? 0 then "-" else "+") +++ JsString.pad 6 (Z.abs y).

(** The date part of an ISO string: [YYYY-MM-DD]. *)
Definition isoDate (t : Z) : string :=
  isoYear (JsDate.YearFromTime t)
  +++ "-" +++ JsString.pad 2 (JsDate.MonthFromTime t + 1)
  +++ "-" +++ JsString.pad 2 (JsDate.DateFromTime t).

Definition hasNoT (s : string) : bool :=
  forallb (fun c => negb (Ascii.eqb c "T"%char)) (list_ascii_of_string s).

(** ** Every way the pagination can go *)
Section Outcomes.

Context {W : Type}.
Variable P : Platform W.

(** How a run of the loop ended, after the token-carrying pages [rs]. *)
Inductive LoopEnd (q : string) (acc : list User) (tok : option string)
    (rs : list Response) (w' : W)
  : Completion (list User) * W * list Event -> Prop :=
| StillPaging :
    LoopEnd q acc tok rs w' (OutOfFuel, w', requests q tok rs)
| LastPage r w2 :
    Users_list P (listParams q (tokenAfter tok rs)) w' = (Returns r, w2) ->
    truthy (nextPageToken r) = false ->
    LoopEnd q acc tok rs w'
      (Normal (acc ++ items (rs ++ [r])), w2, requests q tok (rs ++ [r]))
| FailedPage e w2 :
    Users_list P (listParams q (tokenAfter tok rs)) w' = (Throws e, w2) ->
    LoopEnd q acc tok rs w'
      (Normal (acc ++ items rs), w2,
       requests q tok rs
       ++ [EvUsersList (listParams q (tokenAfter tok rs));
           EvLog (errorLine e)]).

End Outcomes.

(** A catalog entry is what a lookup of its name gives, and its SKU id is
    made of digits. *)
Definition resolves (productId : string) (entry : string * string) : bool :=
  match catalogSku productId (fst entry) with
  | Some sku => String.eqb sku (snd entry)
  | None => false
  end
  && allDigits (snd entry).

(** ** Further sample runtimes *)
Module Sample2.

(** A directory that answers every request with one user and a token; the
    world counts the requests.  The other services are not there. *)
Definition gone : Exn := Ref.transportError "Service not available".

Definition endless : Platform nat :=
  {| timeZone := JsDate.fixedOffset 0;
     clock := fun _ => Sample.t0;
     Users_list :=
       fun _ n =>
         (Returns {| users := Some [Ref.user n];
                     nextPageToken := Some "more" |}, S n);
     LicenseAssignments_get := fun _ _ _ n => (Throws gone, n);
     SpreadsheetApp_create := fun _ n => (Throws gone, n);
     getActiveSheet := fun _ n => (Throws gone, n);
     appendRow := fun _ _ n => (Throws gone, n);
     setValues := fun _ _ _ _ _ _ n => (Throws gone, n);
     getUrl := fun _ n => (Throws gone, n) |}.

(** The reference runtime with sheets that take a header row and refuse a
    bulk write. *)
Definition noBulkWrite : Platform Ref.World :=
  {| timeZone := JsDate.fixedOffset 0;
     clock := Ref.now;
     Users_list := Ref.list_;
     LicenseAssignments_get := Ref.get;
     SpreadsheetApp_create := Ref.create;
     getActiveSheet := Ref.activeSheet;
     appendRow := Ref.append;
     setValues :=
       fun _ _ _ _ _ _ w => (Throws Sample.quotaExceeded, Ref.tick w);
     getUrl := Ref.url |}.

(** A listing service for [checkUserLicense] over the reference world: it
    lists the assignments of the table, or fails as [createFails] says. *)
Definition listing (productId customerId : string) (w : Ref.World)
  : Reply (list LicenseAssignment) * Ref.World :=
  match Ref.createFails w with
  | Some e => (Throws e, Ref.tick w)
  | None =>
      (Returns
         (flat_map (fun entry =>
                      match snd entry with
                      | Returns a => [a]
                      | Throws _ => []
                      end)
                   (Ref.assignments w)),
       Ref.tick w)
  end.

(** The licence holders of a reference world, by user id. *)
Definition holds (w : Ref.World) (userId : string) : bool :=
  match Ref.lookupAssignment userId (Ref.assignments w) with
  | Returns _ => true
  | Throws _ => false
  end.

(** 2023-03-27T00:30Z, 02:30 of the 27th in [Sample.summerTime]: a day
    earlier the clocks there went from 02:00 straight to 03:00. *)
Definition dayAfterSkippedHour : Ref.World := Ref.world 1679877000000 [] [].

(** A zone two hours ahead of UTC until 2023-10-29T01:00Z and one hour ahead
    from then on; a local hour that occurs twice is read as its first
    occurrence. *)
Definition switchBack : Z := 1698541200000.

Definition winterTime : JsDate.TimeZone :=
  {| JsDate.tzaAtUTC :=
       fun t => if t <? switchBack then 7200000 else 3600000;
     JsDate.tzaAtLocal :=
       fun t => if t <? switchBack + 7200000 then 7200000 else 3600000 |}.

(** 2023-10-29T01:30Z, the second time the clocks there read 02:30. *)
Definition repeatedHour : Ref.World := Ref.world 1698543000000 [] [].

End Sample2.

(** * Facts *)

(** ** The calendar arithmetic of [setDate] *)

Module JsDateFacts.
Import JsDate.

Lemma YearFromTime_spec t :
  DayFromYear (YearFromTime t) <= Day t < DayFromYear (YearFromTime t + 1).
Proof.
  unfold YearFromTime, DayFromYear. generalize (Day t). intros d.
  repeat match goal with
         | |- context [if ?b then _ else _] => destruct b eqn:?
         end;
    Z.to_euclidean_division_equations; lia.
Qed.

Lemma MonthFromTime_range t : 0 <= MonthFromTime t <= 11.
Proof.
  unfold MonthFromTime.
  repeat match goal with
         | |- context [if ?b then _ else _] => destruct b
         end; lia.
Qed.

Lemma DateFromTime_monthStart t :
  DateFromTime t
  = DayWithinYear t - monthStart (MonthFromTime t) (InLeapYear t) + 1.
Proof.
  unfold DateFromTime. pose proof (MonthFromTime_range t) as Hm.
  generalize dependent (MonthFromTime t). intros m Hm.
  assert (m = 0 \/ m = 1 \/ m = 2 \/ m = 3 \/ m = 4 \/ m = 5 \/ m = 6
          \/ m = 7 \/ m = 8 \/ m = 9 \/ m = 10 \/ m = 11) as Hcase by lia.
  repeat destruct Hcase as [->|Hcase]; try subst m; simpl; lia.
Qed.

Lemma MakeDay_fields t dt :
  MakeDay (YearFromTime t) (MonthFromTime t) dt = Day t - DateFromTime t + dt.
Proof.
  pose proof (MonthFromTime_range t) as Hm.
  unfold MakeDay.
  rewrite Z.div_small, Z.mod_small, Z.add_0_r by lia.
  rewrite DateFromTime_monthStart. unfold DayWithinYear, InLeapYear. lia.
Qed.

Lemma Day_TimeWithinDay t : MakeDate (Day t) (TimeWithinDay t) = t.
Proof.
  unfold MakeDate, Day, TimeWithinDay, msPerDay.
  Z.to_euclidean_division_equations; lia.
Qed.

Lemma setDate_getDate tz t n :
  setDate tz (Some t) (option_map (fun d => d - n) (getDate tz (Some t)))
  = TimeClip (UTC tz (LocalTime tz t - n * msPerDay)).
Proof.
  simpl. rewrite MakeDay_fields.
  f_equal. f_equal.
  pose proof (Day_TimeWithinDay (LocalTime tz t)) as H.
  unfold MakeDate in *. lia.
Qed.

(** The calendar functions at known dates. *)
Example isoString_epoch : isoString 0 = "1970-01-01T00:00:00.000Z".
Proof. reflexivity. Qed.

Example isoString_before_epoch : isoString (-1) = "1969-12-31T23:59:59.999Z".
Proof. reflexivity. Qed.

Example isoString_leap_day :
  isoString 951782400000 = "2000-02-29T00:00:00.000Z".
Proof. reflexivity. Qed.

Example isoString_not_leap :
  isoString 4107542399999 = "2100-02-28T23:59:59.999Z".
Proof. reflexivity. Qed.

Example isoString_sample : isoString Sample.t0 = "2023-11-14T22:13:20.000Z".
Proof. reflexivity. Qed.

Example isoString_last : isoString maxTime = "+275760-09-13T00:00:00.000Z".
Proof. reflexivity. Qed.

End JsDateFacts.

(** ** The script, function by function *)
Section ScriptFacts.

Context {W : Type}.
Variable P : Platform W.

(** *** Sequencing *)

Lemma bind_normal {A B} (m : M W A) (f : A -> M W B) w a w1 t1 :
  m w = (Normal a, w1, t1) -> bind m f w = after t1 (f a w1).
Proof. intros H. unfold bind, after. rewrite H. reflexivity. Qed.

Lemma bind_throw {A B} (m : M W A) (f : A -> M W B) w e w1 t1 :
  m w = (Throw e, w1, t1) -> bind m f w = (Throw e, w1, t1).
Proof. intros H. unfold bind. rewrite H. reflexivity. Qed.

Lemma after_after {A} t1 t2 (r : Completion A * W * list Event) :
  after t1 (after t2 r) = after (t1 ++ t2) r.
Proof. destruct r as [[c w] t]. simpl. by rewrite app_assoc. Qed.

Lemma after_nil {A} (r : Completion A * W * list Event) : after [] r = r.
Proof. by destruct r as [[c w] t]. Qed.

Lemma audit_unfold cfg fuel :
  auditInactiveEnterpriseUsers P cfg fuel =
  (inactiveDate <- getCutoffDate P (INACTIVITY_DAYS cfg) ;;
   iso <- toISOString inactiveDate ;;
   Logger_log ("Auditing users inactive since: " +++ iso) ;;;
   inactiveUsers <- getInactiveUsers P fuel inactiveDate ;;
   filterAndExport P cfg inactiveUsers)%js.
Proof. reflexivity. Qed.

(** *** The pagination loop *)

Lemma toISOString_valid t (w : W) :
  toISOString (Some t) w = (Normal (isoString t), w, []).
Proof. reflexivity. Qed.

Lemma getInactiveUsers_valid fuel t w :
  getInactiveUsers P fuel (Some t) w
  = listLoop P fuel (cutoffQuery t) [] None w.
Proof.
  unfold getInactiveUsers, toISOString, bind, ret. simpl.
  destruct (listLoop P fuel _ [] None w) as [[c w'] t']. reflexivity.
Qed.

(** One turn of the loop, by what the directory answers. *)
Lemma listLoop_more fuel q acc tok w r w1 :
  Users_list P (listParams q tok) w = (Returns r, w1) ->
  truthy (nextPageToken r) = true ->
  listLoop P (S fuel) q acc tok w =
  after [EvUsersList (listParams q tok)]
        (listLoop P fuel q (acc ++ pageItems r) (nextPageToken r) w1).
Proof.
  intros Hr Htok. simpl. unfold bind, tryCatch, call, ret. rewrite Hr. simpl.
  rewrite Htok.
  destruct r as [[page|] next]; unfold pageItems; simpl; rewrite ?app_nil_r;
    match goal with |- context [listLoop P fuel q ?a ?b ?c] =>
      destruct (listLoop P fuel q a b c) as [[c' w'] t'] end; reflexivity.
Qed.

Lemma listLoop_last fuel q acc tok w r w1 :
  Users_list P (listParams q tok) w = (Returns r, w1) ->
  truthy (nextPageToken r) = false ->
  listLoop P (S fuel) q acc tok w =
  (Normal (acc ++ pageItems r), w1, [EvUsersList (listParams q tok)]).
Proof.
  intros Hr Htok. simpl. unfold bind, tryCatch, call, ret. rewrite Hr. simpl.
  rewrite Htok.
  destruct r as [[page|] next]; unfold pageItems; simpl; rewrite ?app_nil_r;
    reflexivity.
Qed.

Lemma listLoop_fail fuel q acc tok w e w1 :
  Users_list P (listParams q tok) w = (Throws e, w1) ->
  listLoop P (S fuel) q acc tok w =
  (Normal acc, w1,
   [EvUsersList (listParams q tok);
    EvLog ("Error listing users: " +++ message e)]).
Proof.
  intros Hr. simpl. unfold bind, tryCatch, call, ret, Logger_log.
  rewrite Hr. reflexivity.
Qed.

(** The loop over a run of pages that each carry a token. *)
Lemma listLoop_pages q w tok rs w' :
  Pages P q w tok rs w' ->
  forall fuel acc,
    listLoop P (length rs + fuel) q acc tok w =
    after (requests q tok rs)
          (listLoop P fuel q (acc ++ items rs) (tokenAfter tok rs) w').
Proof.
  induction 1 as [w tok|w tok r w1 rs w2 Hr Htok Hrs IH]; intros fuel acc.
  - simpl. by rewrite app_nil_r, after_nil.
  - simpl length. rewrite Nat.add_succ_l.
    rewrite (listLoop_more _ _ _ _ _ _ _ Hr Htok), IH, after_after.
    simpl. unfold items. by rewrite app_assoc.
Qed.

Lemma requests_length q tok rs : length (requests q tok rs) = length rs.
Proof. revert tok. induction rs; intros; simpl; auto. Qed.

Lemma requests_count q tok rs :
  countOf isUsersList (requests q tok rs) = length rs.
Proof.
  unfold countOf. revert tok.
  induction rs as [|r rs IH]; intros; simpl; auto.
Qed.

Lemma requests_asksFor q tok rs : Forall (asksFor q) (requests q tok rs).
Proof.
  revert tok. induction rs as [|r rs IH]; intros; simpl; constructor; auto.
  reflexivity.
Qed.

(** *** The licence probe *)

Lemma hasLicense_found u p s w l w1 :
  LicenseAssignments_get P p s u w = (Returns l, w1) ->
  hasLicense P u p s w = (Normal true, w1, [EvLicenseGet p s u]).
Proof.
  intros H. unfold hasLicense, tryCatch, bind, call, ret. by rewrite H.
Qed.

Lemma hasLicense_failed u p s w e w1 :
  LicenseAssignments_get P p s u w = (Throws e, w1) ->
  hasLicense P u p s w = (Normal false, w1, [EvLicenseGet p s u]).
Proof.
  intros H. unfold hasLicense, tryCatch, bind, call, ret. by rewrite H.
Qed.

Lemma hasLicense_total u p s w :
  exists b w1, hasLicense P u p s w = (Normal b, w1, [EvLicenseGet p s u]).
Proof.
  destruct (LicenseAssignments_get P p s u w) as [[l|e] w1] eqn:H.
  - exists true, w1. eapply hasLicense_found; eauto.
  - exists false, w1. eapply hasLicense_failed; eauto.
Qed.


Lemma Array_filter_cons_keep {A} (f : A -> M W bool) x rest w w1 t1 kept
    w2 t2 :
  f x w = (Normal true, w1, t1) ->
  Array_filter f rest w1 = (Normal kept, w2, t2) ->
  Array_filter f (x :: rest) w = (Normal (x :: kept), w2, t1 ++ t2).
Proof.
  intros Hx Hrest. simpl. unfold bind, ret. rewrite Hx, Hrest. simpl.
  by rewrite app_nil_r.
Qed.

Lemma Array_filter_cons_drop {A} (f : A -> M W bool) x rest w w1 t1 kept
    w2 t2 :
  f x w = (Normal false, w1, t1) ->
  Array_filter f rest w1 = (Normal kept, w2, t2) ->
  Array_filter f (x :: rest) w = (Normal kept, w2, t1 ++ t2).
Proof.
  intros Hx Hrest. simpl. unfold bind, ret. rewrite Hx, Hrest. simpl.
  by rewrite app_nil_r.
Qed.

(** The filter always returns, with a subsequence of its input, after one
    probe per candidate and nothing else. *)
Lemma Array_filter_probe cfg us :
  forall w, exists kept w',
    Array_filter (probe P cfg) us w = (Normal kept, w', probeCalls cfg us)
    /\ sublist kept us.
Proof.
  induction us as [|u us IH]; intros w.
  - exists [], w. split; [reflexivity|constructor].
  - destruct (hasLicense_total (primaryEmail u) (PRODUCT_ID cfg)
                (TARGET_SKU_ID cfg) w) as (b & w1 & Hu).
    destruct (IH w1) as (kept & w2 & Hrest & Hsub).
    destruct b.
    + exists (u :: kept), w2. split; [|by constructor].
      apply (Array_filter_cons_keep (probe P cfg) u us w _ _ _ _ _ Hu Hrest).
    + exists kept, w2. split; [|by constructor].
      apply (Array_filter_cons_drop (probe P cfg) u us w _ _ _ _ _ Hu Hrest).
Qed.

Lemma Array_filter_app {A} (f : A -> M W bool) pre post w kept1 w1 t1 kept2
    w2 t2 :
  Array_filter f pre w = (Normal kept1, w1, t1) ->
  Array_filter f post w1 = (Normal kept2, w2, t2) ->
  Array_filter f (pre ++ post) w = (Normal (kept1 ++ kept2), w2, t1 ++ t2).
Proof.
  revert w kept1 t1.
  induction pre as [|x pre IH]; intros w kept1 t1 Hpre Hpost.
  - simpl in Hpre. unfold ret in Hpre. injection Hpre as <- <- <-. exact Hpost.
  - simpl in Hpre |- *. unfold bind in Hpre |- *.
    destruct (f x w) as [[[b| |] wx] tx]; try discriminate.
    destruct (Array_filter f pre wx) as [[[k| |] wp] tp] eqn:Hp;
      try discriminate.
    simpl in Hpre. unfold ret in Hpre. simpl in Hpre.
    injection Hpre as <- <- <-.
    rewrite (IH _ _ _ Hp Hpost). simpl.
    rewrite !app_nil_r, app_assoc. by destruct b.
Qed.


(** *** What a computation can emit *)

Lemma bind_Forall {A B} (Q : Event -> Prop) (m : M W A) (f : A -> M W B) w :
  Forall Q (trace (m w)) ->
  (forall a w1, Forall Q (trace (f a w1))) ->
  Forall Q (trace (bind m f w)).
Proof.
  unfold bind, trace. intros Hm Hf.
  destruct (m w) as [[[a| |] w1] t1]; simpl in *; auto.
  specialize (Hf a w1). destruct (f a w1) as [[r w2] t2]. simpl in *.
  apply Forall_app; auto.
Qed.

Lemma tryCatch_Forall {A} (Q : Event -> Prop) (m : M W A) h w :
  Forall Q (trace (m w)) ->
  (forall e w1, Forall Q (trace (h e w1))) ->
  Forall Q (trace (tryCatch m h w)).
Proof.
  unfold tryCatch, trace. intros Hm Hh.
  destruct (m w) as [[[a|e|] w1] t1]; simpl in *; auto.
  specialize (Hh e w1). destruct (h e w1) as [[r w2] t2]. simpl in *.
  apply Forall_app; auto.
Qed.

Lemma call_Forall {A} (Q : Event -> Prop) ev (op : W -> Reply A * W) w :
  Q ev -> Forall Q (trace (call ev op w)).
Proof.
  unfold call, trace. intros Hev.
  destruct (op w) as [[a|e] w1]; simpl; auto.
Qed.

Section Emits.

Variable Q : Event -> Prop.
Hypothesis Q_log : forall msg, Q (EvLog msg).

Lemma listLoop_Forall q :
  (forall tok, Q (EvUsersList (listParams q tok))) ->
  forall fuel acc tok w, Forall Q (trace (listLoop P fuel q acc tok w)).
Proof.
  intros Q_list. induction fuel as [|fuel IH]; intros acc tok w; simpl.
  - constructor.
  - apply bind_Forall.
    + apply tryCatch_Forall.
      * apply bind_Forall; [by apply call_Forall|]. intros; constructor.
      * intros e w1. apply bind_Forall; [|intros; constructor].
        by repeat constructor.
    + intros [us next|us] w1; [|constructor].
      destruct (truthy next); [apply IH|constructor].
Qed.

Lemma getInactiveUsers_Forall fuel t w :
  (forall tok, Q (EvUsersList (listParams (cutoffQuery t) tok))) ->
  Forall Q (trace (getInactiveUsers P fuel (Some t) w)).
Proof.
  intros Q_list. rewrite getInactiveUsers_valid. by apply listLoop_Forall.
Qed.

Lemma Array_filter_Forall cfg :
  (forall p s u, Q (EvLicenseGet p s u)) ->
  forall us w, Forall Q (trace (Array_filter (probe P cfg) us w)).
Proof.
  intros Q_get. induction us as [|u us IH]; intros w; simpl.
  - constructor.
  - apply bind_Forall.
    + apply tryCatch_Forall; [|intros; constructor].
      apply bind_Forall; [by apply call_Forall|]. intros; constructor.
    + intros b w1. apply bind_Forall; [apply IH|]. intros; constructor.
Qed.

Lemma exportToSheet_Forall :
  (forall ev, isSheetEvent ev = true -> Q ev) ->
  forall us w, Forall Q (trace (exportToSheet P us w)).
Proof.
  intros Q_sheet us w. unfold exportToSheet.
  repeat (apply bind_Forall; [by apply call_Forall; auto|]; intros).
  apply bind_Forall.
  - destruct (0 <? _); [by apply call_Forall; auto|constructor].
  - intros. apply bind_Forall; [by apply call_Forall; auto|].
    intros. by repeat constructor.
Qed.

Lemma filterAndExport_Forall cfg :
  (forall p s u, Q (EvLicenseGet p s u)) ->
  (forall ev, isSheetEvent ev = true -> Q ev) ->
  forall us w, Forall Q (trace (filterAndExport P cfg us w)).
Proof.
  intros Q_get Q_sheet us w. unfold filterAndExport.
  apply bind_Forall; [by repeat constructor|]. intros _ w1.
  apply bind_Forall; [by apply Array_filter_Forall|]. intros ts w2.
  apply bind_Forall; [by repeat constructor|]. intros _ w3.
  unfold exportStep. destruct (0 <? _).
  - by apply exportToSheet_Forall.
  - by repeat constructor.
Qed.

End Emits.

(** *** The cutoff *)

Lemma getCutoffDate_eq n w :
  getCutoffDate P n w =
  (Normal (JsDate.TimeClip (daysBefore (timeZone P) n (clock P w))), w,
   [EvNow]).
Proof.
  unfold getCutoffDate, bind, newDate, ret.
  rewrite JsDateFacts.setDate_getDate. reflexivity.
Qed.

(** *** The run, step by step *)

Lemma audit_fetched cfg fuel w t us w1 t1 :
  JsDate.TimeClip
    (daysBefore (timeZone P) (INACTIVITY_DAYS cfg) (clock P w)) = Some t ->
  getInactiveUsers P fuel (Some t) w = (Normal us, w1, t1) ->
  auditInactiveEnterpriseUsers P cfg fuel w =
  after ([EvNow; EvLog ("Auditing users inactive since: " +++ isoString t)]
           ++ t1)
        (filterAndExport P cfg us w1).
Proof.
  intros Ht Hfetch. rewrite audit_unfold.
  rewrite (bind_normal _ _ _ _ _ _ (getCutoffDate_eq _ _)), Ht.
  rewrite (bind_normal _ _ _ _ _ _ (toISOString_valid _ _)), after_nil.
  rewrite (bind_normal _ _ w tt w [EvLog _] eq_refl).
  rewrite (bind_normal _ _ _ _ _ _ Hfetch).
  by rewrite !after_after.
Qed.



Lemma filterAndExport_filtered cfg us w ts w1 t1 :
  Array_filter (probe P cfg) us w = (Normal ts, w1, t1) ->
  filterAndExport P cfg us w =
  after ([EvLog (foundInactive us)] ++ t1 ++ [EvLog (foundTarget ts)])
        (exportStep P ts w1).
Proof.
  intros Hfilter. unfold filterAndExport.
  rewrite (bind_normal _ _ w tt w [EvLog _] eq_refl).
  rewrite (bind_normal _ _ _ _ _ _ Hfilter).
  rewrite (bind_normal _ _ w1 tt w1 [EvLog _] eq_refl).
  by rewrite !after_after.
Qed.

End ScriptFacts.

(** ** The export, call by call *)

Section ExportFacts.
Context {W : Type}.
Variable P : Platform W.

Lemma call_returns {A} ev (op : W -> Reply A * W) w a w1 :
  op w = (Returns a, w1) -> call ev op w = (Normal a, w1, [ev]).
Proof. intros H. unfold call. by rewrite H. Qed.

(** The calls of a successful export of a non-empty list. *)
Lemma exportToSheet_calls u us w ss w1 sheet w2 w3 w4 url w5 :
  let users := u :: us in
  let n := Z.of_nat (length users) in
  SpreadsheetApp_create P sheetTitle w = (Returns ss, w1) ->
  getActiveSheet P ss w1 = (Returns sheet, w2) ->
  appendRow P sheet headerRow w2 = (Returns tt, w3) ->
  setValues P sheet 2 1 n 5 (map userRow users) w3 = (Returns tt, w4) ->
  getUrl P ss w4 = (Returns url, w5) ->
  exportToSheet P users w =
  (Normal tt, w5,
   [EvCreate sheetTitle; EvGetActiveSheet ss; EvAppendRow sheet headerRow;
    EvSetValues sheet 2 1 n 5 (map userRow users); EvGetUrl ss;
    EvLog ("Report generated: " +++ url)]).
Proof.
  intros users n Hcreate Hsheet Happend Hwrite Hurl. unfold exportToSheet.
  rewrite (bind_normal _ _ _ _ _ _ (call_returns _ _ _ _ _ Hcreate)).
  rewrite (bind_normal _ _ _ _ _ _ (call_returns _ _ _ _ _ Hsheet)).
  rewrite (bind_normal _ _ _ _ _ _ (call_returns _ _ _ _ _ Happend)).
  replace (0 <? Z.of_nat (length (map userRow users))) with true
    by (symmetry; apply Z.ltb_lt; unfold users; simpl; lia).
  rewrite length_map.
  change (firstRowLength (map userRow users)) with 5.
  rewrite (bind_normal _ _ _ _ _ _ (call_returns _ _ _ _ _ Hwrite)).
  rewrite (bind_normal _ _ _ _ _ _ (call_returns _ _ _ _ _ Hurl)).
  reflexivity.
Qed.

End ExportFacts.


(** ** The reference runtime's spreadsheet *)

Module RefFacts.
Import Ref.

Lemma update_last {A} (f : A -> A) l x :
  update (length l) f (l ++ [x]) = l ++ [f x].
Proof. induction l as [|y l IH]; simpl; auto. by rewrite IH. Qed.

Lemma store_end {A} (d : A) l x : store d (length l) x l = l ++ [x].
Proof. induction l as [|y l IH]; simpl; auto. by rewrite IH. Qed.

Lemma storeFrom_end {A} (d : A) xs : forall l,
  storeFrom d (length l) xs l = l ++ xs.
Proof.
  induction xs as [|x xs IH]; intros l; simpl.
  - by rewrite app_nil_r.
  - rewrite store_end.
    replace (S (length l)) with (length (l ++ [x]))
      by (rewrite length_app; simpl; lia).
    by rewrite IH, <- app_assoc.
Qed.

Lemma nth_end {A} (d : A) l : nth (length l) l d = d.
Proof. induction l; simpl; auto. Qed.

(** Writing a block just below the last row of a grid, from the first
    column, appends its rows. *)
Lemma writeBlock_end values : forall g,
  writeBlock (length g) 0 values g = g ++ values.
Proof.
  induction values as [|vals values IH]; intros g; simpl.
  - by rewrite app_nil_r.
  - rewrite nth_end. unfold writeCells.
    change (storeFrom blank 0 vals []) with
      (storeFrom blank (length (@nil Cell)) vals []).
    rewrite storeFrom_end. simpl app at 1.
    rewrite store_end.
    replace (S (length g)) with (length (g ++ [vals]))
      by (rewrite length_app; simpl; lia).
    by rewrite IH, <- app_assoc.
Qed.

Lemma dimensionsMatch_userRows us :
  dimensionsMatch (Z.of_nat (length us)) 5 (map userRow us) = true.
Proof.
  unfold dimensionsMatch. rewrite length_map, Z.eqb_refl. simpl.
  induction us; simpl; auto.
Qed.

Lemma create_ok title w :
  createFails w = None ->
  create title w =
  (Returns (length (sheets w)), tick (withSheets (sheets w ++ [[]]) w)).
Proof. intros H. unfold create. by rewrite H. Qed.

Lemma ltb_end {A} (l : list A) x : (length l <? length (l ++ [x]))%nat = true.
Proof. apply Nat.ltb_lt. rewrite length_app. simpl. lia. Qed.

Lemma append_end row w l g :
  writeFails w = None ->
  sheets w = l ++ [g] ->
  append (length l) row w =
  (Returns tt, tick (withSheets (l ++ [g ++ [row]]) w)).
Proof.
  intros Hw Hs. unfold append. by rewrite Hw, Hs, ltb_end, update_last.
Qed.

Lemma write_end values cols w l g :
  writeFails w = None ->
  sheets w = l ++ [g] ->
  values <> [] ->
  1 <= cols ->
  dimensionsMatch (Z.of_nat (length values)) cols values = true ->
  write (length l) (Z.of_nat (length g) + 1) 1 (Z.of_nat (length values))
        cols values w =
  (Returns tt, tick (withSheets (l ++ [g ++ values]) w)).
Proof.
  intros Hw Hs Hne Hcols Hdim. unfold write.
  rewrite Hw, Hs, ltb_end, Hdim, update_last.
  replace (1 <=? Z.of_nat (length g) + 1) with true
    by (symmetry; apply Z.leb_le; lia).
  replace (1 <=? Z.of_nat (length values)) with true
    by (symmetry; apply Z.leb_le; destruct values; [done|simpl; lia]).
  replace (1 <=? cols) with true by (symmetry; by apply Z.leb_le).
  replace (Z.to_nat (Z.of_nat (length g) + 1 - 1)) with (length g) by lia.
  change (Z.to_nat (1 - 1)) with 0%nat.
  by rewrite writeBlock_end.
Qed.


End RefFacts.


(** * The claims *)

Section Claims.
Context {W : Type}.
Variable P : Platform W.

Lemma requests_snoc q tok rs r :
  requests q tok (rs ++ [r]) =
  requests q tok rs ++ [EvUsersList (listParams q (tokenAfter tok rs))].
Proof.
  revert tok. induction rs as [|r' rs IH]; intros tok; simpl; auto.
  by rewrite IH.
Qed.

Lemma items_snoc rs r : items (rs ++ [r]) = items rs ++ pageItems r.
Proof. unfold items. rewrite flat_map_app. simpl. by rewrite app_nil_r. Qed.

Lemma countOf_app p t1 t2 :
  countOf p (t1 ++ t2) = (countOf p t1 + countOf p t2)%nat.
Proof. unfold countOf. by rewrite List.filter_app, length_app. Qed.

Lemma listLoop_first fuel q acc tok w :
  exists rest,
    trace (listLoop P (S fuel) q acc tok w) =
    EvUsersList (listParams q tok) :: rest.
Proof.
  destruct (Users_list P (listParams q tok) w) as [[r|e] w1] eqn:Hr.
  - destruct (truthy (nextPageToken r)) eqn:Htok.
    + rewrite (listLoop_more _ _ _ _ _ _ _ _ Hr Htok).
      destruct (listLoop P fuel q _ _ w1) as [[c w2] t]. by exists t.
    + rewrite (listLoop_last _ _ _ _ _ _ _ _ Hr Htok). by eexists.
  - rewrite (listLoop_fail _ _ _ _ _ _ _ _ Hr). by eexists.
Qed.

(** C2.  If the request for page [k] fails (the pages before it, [rs],
    each came with a token), [getInactiveUsers] leaves the loop at once and
    returns exactly the users of [rs], after one log line that carries the
    error's message.  The failed page is not requested again: the directory
    was called [k] times in all.  The failure does not end the run:
    [auditInactiveEnterpriseUsers] goes on to the licence check and the
    export with the partial candidates. *)
Theorem getInactiveUsers_page_failure t w rs w1 e w2 fuel :
  Pages P (cutoffQuery t) w None rs w1 ->
  Users_list P (listParams (cutoffQuery t) (tokenAfter None rs)) w1
  = (Throws e, w2) ->
  (length rs < fuel)%nat ->
  let fetched :=
    requests (cutoffQuery t) None rs
    ++ [EvUsersList (listParams (cutoffQuery t) (tokenAfter None rs));
        EvLog ("Error listing users: " +++ message e)] in
  getInactiveUsers P fuel (Some t) w = (Normal (items rs), w2, fetched)
  /\ countOf isUsersList fetched = S (length rs)
  /\ forall cfg,
       JsDate.TimeClip
         (daysBefore (timeZone P) (INACTIVITY_DAYS cfg) (clock P w))
       = Some t ->
       auditInactiveEnterpriseUsers P cfg fuel w =
       after ([EvNow;
               EvLog ("Auditing users inactive since: " +++ isoString t)]
              ++ fetched)
             (filterAndExport P cfg (items rs) w2).
Proof.
  intros Hpages Hfail Hfuel fetched.
  assert (getInactiveUsers P fuel (Some t) w
          = (Normal (items rs), w2, fetched)) as Hfetch.
  { rewrite getInactiveUsers_valid.
    replace fuel with (length rs + S (fuel - S (length rs)))%nat by lia.
    rewrite (listLoop_pages _ _ _ _ _ _ Hpages).
    by rewrite (listLoop_fail _ _ _ _ _ _ _ _ Hfail). }
  split; [exact Hfetch|]. split.
  - unfold fetched. rewrite countOf_app, requests_count.
    unfold countOf. simpl. lia.
  - intros cfg Ht. by apply audit_fetched.
Qed.

(** C3.  For every sequence of successful page responses of which the
    last one, [r], carries no next-page token (and every one before it
    carries one), [getInactiveUsers] returns the concatenation of the pages'
    users, page by page and in the order within each page, after one request
    per page.  At three pages of 500, 500 and 37 users that is 1037 users in
    order. *)
Theorem getInactiveUsers_all_pages t w rs w1 r w2 fuel :
  Pages P (cutoffQuery t) w None rs w1 ->
  Users_list P (listParams (cutoffQuery t) (tokenAfter None rs)) w1
  = (Returns r, w2) ->
  truthy (nextPageToken r) = false ->
  (length rs < fuel)%nat ->
  getInactiveUsers P fuel (Some t) w =
  (Normal (concat (map pageItems (rs ++ [r]))), w2,
   requests (cutoffQuery t) None (rs ++ [r])).
Proof.
  intros Hpages Hlast Htok Hfuel.
  rewrite getInactiveUsers_valid.
  replace fuel with (length rs + S (fuel - S (length rs)))%nat by lia.
  rewrite (listLoop_pages _ _ _ _ _ _ Hpages).
  rewrite (listLoop_last _ _ _ _ _ _ _ _ Hlast Htok).
  rewrite <- flat_map_concat_map. fold (items (rs ++ [r])).
  by rewrite requests_snoc, items_snoc.
Qed.

(** C10.  A response whose [users] field is absent or empty never makes the
    loop throw.  If it carries a next-page token (a non-empty string), the
    accumulated list stays as it is and the loop goes on: its next request
    carries the token of that response, as its [pageToken].  If it carries
    none, the loop ends in the regular way and returns the accumulated
    list. *)
Theorem listLoop_page_without_items fuel q acc tok w r w1 :
  Users_list P (listParams q tok) w = (Returns r, w1) ->
  users r = None \/ users r = Some [] ->
  (truthy (nextPageToken r) = true ->
   listLoop P (S fuel) q acc tok w =
   after [EvUsersList (listParams q tok)]
         (listLoop P fuel q acc (nextPageToken r) w1)
   /\ (exists rest,
         trace (listLoop P (S (S fuel)) q acc tok w) =
         EvUsersList (listParams q tok)
         :: EvUsersList (listParams q (nextPageToken r)) :: rest)
   /\ exists next rest,
        trace (listLoop P (S (S fuel)) q acc tok w) =
        EvUsersList (listParams q tok) :: EvUsersList next :: rest
        /\ pageToken next = nextPageToken r
        /\ query next = q
        /\ requestTokens (trace (listLoop P (S (S fuel)) q acc tok w)) =
           tok :: nextPageToken r :: requestTokens rest)
  /\ (truthy (nextPageToken r) = false ->
      listLoop P (S fuel) q acc tok w =
      (Normal acc, w1, [EvUsersList (listParams q tok)])).
Proof.
  intros Hr Hnone.
  assert (pageItems r = []) as Hitems.
  { unfold pageItems. by destruct Hnone as [-> | ->]. }
  split; intros Htok.
  - assert (exists rest,
               trace (listLoop P (S (S fuel)) q acc tok w) =
               EvUsersList (listParams q tok)
               :: EvUsersList (listParams q (nextPageToken r)) :: rest)
      as [rest Htrace].
    { rewrite (listLoop_more _ _ _ _ _ _ _ _ Hr Htok).
      destruct (listLoop_first fuel q (acc ++ pageItems r)
                  (nextPageToken r) w1) as [rest Hrest].
      exists rest. unfold trace in *.
      destruct (listLoop P (S fuel) q _ _ w1) as [[c w2] t'].
      simpl in *. by rewrite Hrest. }
    split; [|split].
    + rewrite (listLoop_more _ _ _ _ _ _ _ _ Hr Htok), Hitems.
      by rewrite app_nil_r.
    + by exists rest.
    + exists (listParams q (nextPageToken r)), rest.
      split; [exact Htrace|]. split; [reflexivity|]. split; [reflexivity|].
      rewrite Htrace. reflexivity.
  - rewrite (listLoop_last _ _ _ _ _ _ _ _ Hr Htok), Hitems.
    by rewrite app_nil_r.
Qed.

(** C4.  Whatever the licensing service answers, the licence filter returns
    a subsequence of its input: only candidates it was given, in the order it
    was given them. *)
Theorem Array_filter_subsequence cfg us w :
  exists kept w' t,
    Array_filter (probe P cfg) us w = (Normal kept, w', t)
    /\ sublist kept us.
Proof.
  destruct (Array_filter_probe P cfg us w) as (kept & w' & H & Hsub).
  by exists kept, w', (probeCalls cfg us).
Qed.

Lemma logged_probeCalls cfg us : logged (probeCalls cfg us) = [].
Proof. induction us; simpl; auto. Qed.

(** C1, amended.  A candidate whose probe fails with any error at all, a
    confirmed not-found or another one, gets [false] from [hasLicense] and is
    left out of the matched set; the filter's whole trace holds the probes
    and no log line, so nothing records the failure or tells an inconclusive
    probe from a confirmed negative. *)
Theorem hasLicense_any_failure cfg pre u post w kept1 w1 t1 e w2 :
  Array_filter (probe P cfg) pre w = (Normal kept1, w1, t1) ->
  LicenseAssignments_get P (PRODUCT_ID cfg) (TARGET_SKU_ID cfg)
                         (primaryEmail u) w1 = (Throws e, w2) ->
  let probed :=
    [EvLicenseGet (PRODUCT_ID cfg) (TARGET_SKU_ID cfg) (primaryEmail u)] in
  probe P cfg u w1 = (Normal false, w2, probed)
  /\ exists kept2 w3 t2,
       Array_filter (probe P cfg) post w2 = (Normal kept2, w3, t2)
       /\ Array_filter (probe P cfg) (pre ++ u :: post) w =
          (Normal (kept1 ++ kept2), w3, t1 ++ probed ++ t2)
       /\ logged (t1 ++ probed ++ t2) = [].
Proof.
  intros Hpre Hget probed.
  pose proof (hasLicense_failed P _ _ _ _ _ _ Hget) as Hu.
  split; [exact Hu|].
  destruct (Array_filter_probe P cfg post w2) as (kept2 & w3 & Hpost & _).
  exists kept2, w3, (probeCalls cfg post).
  split; [exact Hpost|].
  assert (Array_filter (probe P cfg) (u :: post) w1 =
          (Normal kept2, w3, probed ++ probeCalls cfg post)) as Hupost.
  { apply (Array_filter_cons_drop (probe P cfg) u post w1 _ _ _ _ _
             Hu Hpost). }
  pose proof (Array_filter_app _ _ _ _ _ _ _ _ _ _ Hpre Hupost) as Hall.
  split; [exact Hall|].
  destruct (Array_filter_probe P cfg (pre ++ u :: post) w)
    as (kept & w' & Hcalls & _).
  rewrite Hall in Hcalls. injection Hcalls as _ _ Ht.
  transitivity (logged (probeCalls cfg (pre ++ u :: post)));
    [f_equal; exact Ht|apply logged_probeCalls].
Qed.


Lemma trace_after {A} t (r : Completion A * W * list Event) :
  trace (after t r) = t ++ trace r.
Proof. by destruct r as [[c w] t']. Qed.

Lemma TimeClip_valid x :
  Z.abs x <= JsDate.maxTime -> JsDate.TimeClip x = Some x.
Proof.
  intros Hx. unfold JsDate.TimeClip.
  destruct (JsDate.maxTime <? Z.abs x) eqn:E; [lia|reflexivity].
Qed.

Lemma daysBefore_fixedOffset off n t :
  daysBefore (JsDate.fixedOffset off) n t = t - n * JsDate.msPerDay.
Proof. unfold daysBefore, JsDate.UTC, JsDate.LocalTime. simpl. lia. Qed.

Lemma laterEvent_sheet q ev : isSheetEvent ev = true -> laterEvent q ev.
Proof. destruct ev; simpl; intros; try discriminate; by split. Qed.

(** In a run whose cutoff is valid the clock is read once, first, and every
    directory request carries the query of that cutoff. *)
Lemma audit_one_clock_reading cfg fuel w t :
  JsDate.TimeClip
    (daysBefore (timeZone P) (INACTIVITY_DAYS cfg) (clock P w)) = Some t ->
  exists rest,
    trace (auditInactiveEnterpriseUsers P cfg fuel w) = EvNow :: rest
    /\ Forall (laterEvent (cutoffQuery t)) rest.
Proof.
  intros Ht. rewrite audit_unfold.
  rewrite (bind_normal _ _ _ _ _ _ (getCutoffDate_eq P _ _)), Ht.
  rewrite trace_after. eexists. split; [reflexivity|].
  assert (forall msg, laterEvent (cutoffQuery t) (EvLog msg)) as Q_log
    by (by split).
  apply bind_Forall; [constructor|]. intros iso w1.
  apply bind_Forall; [by repeat constructor|]. intros _ w2.
  apply bind_Forall.
  - apply getInactiveUsers_Forall; [done|]. intros tok. by split.
  - intros us w3. apply filterAndExport_Forall; [done| |].
    + intros. by split.
    + apply laterEvent_sheet.
Qed.

(** What moving a local reading back by whole days does to its calendar
    day and to its time within the day. *)
Lemma days_back x n :
  JsDate.TimeWithinDay (x - n * JsDate.msPerDay) = JsDate.TimeWithinDay x
  /\ JsDate.Day (x - n * JsDate.msPerDay) = JsDate.Day x - n.
Proof.
  unfold JsDate.TimeWithinDay, JsDate.Day, JsDate.msPerDay.
  replace (x - n * 86400000) with (x + (- n) * 86400000) by lia.
  rewrite Z.mod_add, Z.div_add by lia. lia.
Qed.

(** C6, amended.  For every [inactivityDays > 0] whose shifted instant lies
    within the range of a [Date], [getCutoffDate] reads the clock once and
    returns that reading less [inactivityDays] calendar days as [setDate]
    takes them: the local reading is moved back [inactivityDays] times 24
    hours and the zone turns the result into an instant.  In a run the
    clock is not read again, and every directory request carries the query
    of that one cutoff, however the clock moves during the calls.  In a zone
    with a fixed offset the cutoff is [inactivityDays] times 24 hours before
    the reading.  In any zone, when the cutoff's local reading is the moved
    local reading (the zone did not skip it), the cutoff falls on the local
    calendar day [inactivityDays] days earlier at the same local time of
    day. *)
Theorem getCutoffDate_days_before n w :
  0 < n ->
  Z.abs (daysBefore (timeZone P) n (clock P w)) <= JsDate.maxTime ->
  getCutoffDate P n w =
  (Normal (Some (daysBefore (timeZone P) n (clock P w))), w, [EvNow])
  /\ (forall cfg fuel,
       INACTIVITY_DAYS cfg = n ->
       exists rest,
         trace (auditInactiveEnterpriseUsers P cfg fuel w) = EvNow :: rest
         /\ Forall
              (laterEvent
                 (cutoffQuery (daysBefore (timeZone P) n (clock P w))))
              rest)
  /\ daysBefore (timeZone P) n (clock P w) =
     JsDate.UTC (timeZone P)
       (JsDate.LocalTime (timeZone P) (clock P w) - n * JsDate.msPerDay)
  /\ (forall off,
        timeZone P = JsDate.fixedOffset off ->
        daysBefore (timeZone P) n (clock P w)
        = clock P w - n * JsDate.msPerDay)
  /\ (JsDate.LocalTime (timeZone P) (daysBefore (timeZone P) n (clock P w))
      = JsDate.LocalTime (timeZone P) (clock P w) - n * JsDate.msPerDay ->
      JsDate.TimeWithinDay
        (JsDate.LocalTime (timeZone P)
           (daysBefore (timeZone P) n (clock P w)))
      = JsDate.TimeWithinDay (JsDate.LocalTime (timeZone P) (clock P w))
      /\ JsDate.Day
           (JsDate.LocalTime (timeZone P)
              (daysBefore (timeZone P) n (clock P w)))
         = JsDate.Day (JsDate.LocalTime (timeZone P) (clock P w)) - n).
Proof.
  intros Hn Hrange. split; [|split; [|split; [|split]]].
  - by rewrite getCutoffDate_eq, TimeClip_valid.
  - intros cfg fuel <-. apply audit_one_clock_reading.
    by apply TimeClip_valid.
  - reflexivity.
  - intros off ->. apply daysBefore_fixedOffset.
  - intros ->. apply days_back.
Qed.

(** C5, amended.  For every [inactivityDays <= 0], [getCutoffDate] validates
    nothing and throws nothing: it returns a [Date] computed as for a
    positive value, the clock reading moved by [inactivityDays] calendar
    days, invalid if that is out of range.  In a zone with a fixed offset
    that is the reading less [inactivityDays] times 24 hours: the reading
    itself for 0, a later instant for a negative value.  No configuration
    error exists: with a valid [Date] the run goes on to query the
    directory; with an invalid one it ends by the [RangeError] of
    [toISOString], before any call to a service. *)
Theorem getCutoffDate_no_validation n w :
  n <= 0 ->
  getCutoffDate P n w =
  (Normal (JsDate.TimeClip (daysBefore (timeZone P) n (clock P w))), w,
   [EvNow])
  /\ daysBefore (timeZone P) n (clock P w) =
     JsDate.UTC (timeZone P)
       (JsDate.LocalTime (timeZone P) (clock P w) - n * JsDate.msPerDay)
  /\ (forall off,
        timeZone P = JsDate.fixedOffset off ->
        daysBefore (timeZone P) n (clock P w)
        = clock P w - n * JsDate.msPerDay
        /\ clock P w <= daysBefore (timeZone P) n (clock P w)
        /\ (n = 0 -> daysBefore (timeZone P) n (clock P w) = clock P w))
  /\ (forall cfg fuel t,
       INACTIVITY_DAYS cfg = n ->
       JsDate.TimeClip (daysBefore (timeZone P) n (clock P w)) = Some t ->
       exists rest,
         trace (auditInactiveEnterpriseUsers P cfg (S fuel) w) =
         EvNow
         :: EvLog ("Auditing users inactive since: " +++ isoString t)
         :: EvUsersList (listParams (cutoffQuery t) None) :: rest)
  /\ (forall cfg fuel,
       INACTIVITY_DAYS cfg = n ->
       JsDate.TimeClip (daysBefore (timeZone P) n (clock P w)) = None ->
       auditInactiveEnterpriseUsers P cfg fuel w
       = (Throw invalidTime, w, [EvNow])).
Proof.
  intros Hn. split; [apply getCutoffDate_eq|]. split; [reflexivity|].
  split; [|split].
  - intros off ->. rewrite daysBefore_fixedOffset.
    unfold JsDate.msPerDay. repeat split; lia.
  - intros cfg fuel t <- Ht. rewrite audit_unfold.
    rewrite (bind_normal _ _ _ _ _ _ (getCutoffDate_eq P _ _)), Ht.
    rewrite (bind_normal _ _ _ _ _ _ (toISOString_valid _ _)), after_nil.
    rewrite (bind_normal _ _ w tt w [EvLog _] eq_refl).
    rewrite after_after, trace_after.
    destruct (listLoop_first fuel (cutoffQuery t) [] None w) as [rest Hrest].
    unfold bind. rewrite getInactiveUsers_valid. unfold trace in *.
    destruct (listLoop P (S fuel) _ _ _ w) as [[c w1] t1]. simpl in Hrest.
    subst t1.
    destruct c as [us| |]; simpl.
    + destruct (filterAndExport P cfg us w1) as [[c' w'] t']. simpl.
      by eexists.
    + by eexists.
    + by eexists.
  - intros cfg fuel <- Ht. rewrite audit_unfold.
    rewrite (bind_normal _ _ _ _ _ _ (getCutoffDate_eq P _ _)), Ht.
    reflexivity.
Qed.

Lemma logged_app t1 t2 : logged (t1 ++ t2) = logged t1 ++ logged t2.
Proof. unfold logged. apply flat_map_app. Qed.

Lemma countOf_none p t :
  Forall (fun ev => p ev = false) t -> countOf p t = 0%nat.
Proof.
  unfold countOf. induction 1 as [|ev t Hev _ IH]; simpl; auto.
  by rewrite Hev.
Qed.

(** C7.  If the matched set is empty, step 3 creates nothing: it only logs
    that no user matched.  The run completes normally, its log ends with the
    count of zero matches and the no-match line, and its trace holds no call
    to the spreadsheet service. *)
Theorem audit_no_matches cfg fuel w t us w1 t1 w2 t2 :
  JsDate.TimeClip
    (daysBefore (timeZone P) (INACTIVITY_DAYS cfg) (clock P w)) = Some t ->
  getInactiveUsers P fuel (Some t) w = (Normal us, w1, t1) ->
  Array_filter (probe P cfg) us w1 = (Normal [], w2, t2) ->
  let ran :=
    [EvNow; EvLog ("Auditing users inactive since: " +++ isoString t)]
    ++ t1 ++ [EvLog (foundInactive us)] ++ t2
    ++ [EvLog "Found 0 users with Target License and Inactive.";
        EvLog "No matching users found."] in
  exportStep P [] w2 = (Normal tt, w2, [EvLog "No matching users found."])
  /\ auditInactiveEnterpriseUsers P cfg fuel w = (Normal tt, w2, ran)
  /\ countOf isSheetEvent ran = 0%nat.
Proof.
  intros Ht Hfetch Hfilter ran.
  assert (exportStep P [] w2 =
          (Normal tt, w2, [EvLog "No matching users found."])) as Hstep
    by reflexivity.
  split; [exact Hstep|]. split.
  - rewrite (audit_fetched P _ _ _ _ _ _ _ Ht Hfetch).
    rewrite (filterAndExport_filtered P _ _ _ _ _ _ Hfilter).
    rewrite after_after, Hstep. unfold after, ran.
    rewrite <- !app_assoc. reflexivity.
  - apply countOf_none. unfold ran.
    pose proof (getInactiveUsers_Forall P (fun ev => isSheetEvent ev = false)
                  (fun _ => eq_refl) fuel t w (fun _ => eq_refl)) as H1.
    pose proof (Array_filter_Forall P (fun ev => isSheetEvent ev = false)
                  cfg (fun _ _ _ => eq_refl) us w1) as H2.
    rewrite Hfetch in H1. rewrite Hfilter in H2. unfold trace in *.
    simpl in H1, H2.
    repeat (apply Forall_app; split); auto; by repeat constructor.
Qed.


End Claims.

(** C8, amended.  On the reference runtime, with a spreadsheet service that
    does not fail, the export of a non-empty matched set creates one new
    spreadsheet whose first row is the header [Name, Email, Last Login Time,
    Creation Time, Suspended], followed by one row per match, in order, with
    the match's full name, email, last-login time, creation time and
    suspended flag as they are; the rows are written in one call, and the
    spreadsheet's URL is logged. *)
Theorem exportToSheet_artifact tz users w :
  users <> [] ->
  Ref.createFails w = None ->
  Ref.writeFails w = None ->
  let ss := length (Ref.sheets w) in
  exists w',
    exportToSheet (Ref.platform tz) users w =
    (Normal tt, w',
     [EvCreate sheetTitle; EvGetActiveSheet ss; EvAppendRow ss headerRow;
      EvSetValues ss 2 1 (Z.of_nat (length users)) 5 (map userRow users);
      EvGetUrl ss; EvLog ("Report generated: " +++ Ref.urlOf ss)])
    /\ Ref.sheets w' = Ref.sheets w ++ [headerRow :: map userRow users].
Proof.
  intros Hne Hcreate Hwrite ss. subst ss.
  set (w1 := Ref.tick (Ref.withSheets (Ref.sheets w ++ [[]]) w)).
  set (w2 := Ref.tick
               (Ref.withSheets (Ref.sheets w ++ [[] ++ [headerRow]]) w1)).
  set (w3 := Ref.tick
               (Ref.withSheets
                  (Ref.sheets w ++ [[headerRow] ++ map userRow users]) w2)).
  exists w3. split; [|reflexivity].
  destruct users as [|u us]; [done|].
  apply (exportToSheet_calls (Ref.platform tz) u us w _ w1 _ w1 w2 w3 _ w3).
  - by apply RefFacts.create_ok.
  - reflexivity.
  - by apply RefFacts.append_end.
  - pose proof (RefFacts.write_end (map userRow (u :: us)) 5 w2
                  (Ref.sheets w) [headerRow]) as H.
    rewrite length_map in H. apply H; try done.
    apply RefFacts.dimensionsMatch_userRows.
  - reflexivity.
Qed.

(** ** The claims at sample worlds *)

(** C2 at a directory whose second page request fails: the 500 users of
    the first page are returned, after two requests and one log line. *)
Lemma getInactiveUsers_page_failure_witness :
  getInactiveUsers Ref.utc 5 (Some Sample.cutoff) Sample.secondPageFails =
  (Normal (Ref.usersFrom 0 500),
   Ref.tick (Ref.withDirectory []
     (Ref.tick (Ref.withDirectory [Throws Sample.backendError]
        Sample.secondPageFails))),
   [EvUsersList (listParams (cutoffQuery Sample.cutoff) None);
    EvUsersList (listParams (cutoffQuery Sample.cutoff) (Some "page-2"));
    EvLog "Error listing users: Backend Error"]).
Proof.
  assert (Pages Ref.utc (cutoffQuery Sample.cutoff) Sample.secondPageFails
            None [Sample.firstPage]
            (Ref.tick (Ref.withDirectory [Throws Sample.backendError]
               Sample.secondPageFails))) as Hpages.
  { eapply Pages_cons; [reflexivity|reflexivity|apply Pages_nil]. }
  refine (eq_trans
            (proj1 (getInactiveUsers_page_failure Ref.utc Sample.cutoff
                      Sample.secondPageFails [Sample.firstPage] _
                      Sample.backendError _ 5 Hpages _ _)) _).
  - reflexivity.
  - simpl. lia.
  - vm_compute. reflexivity.
Defined.

(** C3 at three pages of 500, 500 and 37 users: 1037 users, in order,
    after three requests. *)
Lemma getInactiveUsers_all_pages_witness :
  exists w' t',
    getInactiveUsers Ref.utc 3 (Some Sample.cutoff) Sample.threePages =
    (Normal (Ref.usersFrom 0 1037), w', t')
    /\ length (Ref.usersFrom 0 1037) = 1037%nat
    /\ countOf isUsersList t' = 3%nat.
Proof.
  set (w1 := Ref.tick (Ref.withDirectory
               [Returns Sample.secondPage; Returns Sample.thirdPage]
               Sample.threePages)).
  set (w2 := Ref.tick (Ref.withDirectory [Returns Sample.thirdPage] w1)).
  set (w3 := Ref.tick (Ref.withDirectory [] w2)).
  assert (Pages Ref.utc (cutoffQuery Sample.cutoff) Sample.threePages None
            [Sample.firstPage; Sample.secondPage] w2) as Hpages.
  { apply (Pages_cons _ _ _ _ _ w1); [reflexivity|reflexivity|].
    apply (Pages_cons _ _ _ _ _ w2); [reflexivity|reflexivity|].
    apply Pages_nil. }
  pose proof (getInactiveUsers_all_pages Ref.utc Sample.cutoff
                Sample.threePages [Sample.firstPage; Sample.secondPage] w2
                Sample.thirdPage w3 3 Hpages eq_refl eq_refl
                (le_n 3)) as H.
  exists w3.
  exists (requests (cutoffQuery Sample.cutoff) None
            [Sample.firstPage; Sample.secondPage; Sample.thirdPage]).
  split; [|split].
  - rewrite H. vm_compute. reflexivity.
  - unfold Ref.usersFrom. by rewrite length_map, length_seq.
  - reflexivity.
Defined.

(** C10 at a first response with the token [next] and no [users] field: the
    loop goes on, its second request carries [next], and it returns the two
    users of the next page. *)
Lemma listLoop_page_without_items_witness :
  completion (listLoop Ref.utc 4 (cutoffQuery Sample.cutoff) [] None
                       Sample.emptyThenTwo)
  = Normal (Ref.usersFrom 0 2)
  /\ requestTokens
       (trace (listLoop Ref.utc 4 (cutoffQuery Sample.cutoff) [] None
                        Sample.emptyThenTwo))
     = [None; Some "next"].
Proof.
  destruct (proj1 (listLoop_page_without_items Ref.utc 2
                     (cutoffQuery Sample.cutoff) [] None
                     Sample.emptyThenTwo
                     {| users := None; nextPageToken := Some "next" |}
                     _ eq_refl (or_introl eq_refl))
                  eq_refl)
    as (Hstep & _ & next & rest & Htrace & Htoken & _ & Htokens).
  split.
  - vm_compute. reflexivity.
  - rewrite Htokens. f_equal. f_equal.
    vm_compute in Htrace. injection Htrace as _ <-. reflexivity.
Defined.

(** C1, amended, at ten candidates of which 2, 5 and 9 hold the licence and
    candidate 4's probe fails in transport: exactly 2, 5 and 9 are kept and
    nothing is logged. *)
Lemma hasLicense_any_failure_witness :
  exists w' t',
    Array_filter (probe Ref.utc CONFIG) (Ref.usersFrom 1 10)
                 (Sample.tenCandidates Sample.connectionReset)
    = (Normal [Ref.user 2; Ref.user 5; Ref.user 9], w', t')
    /\ logged t' = [].
Proof.
  set (w := Sample.tenCandidates Sample.connectionReset).
  destruct (hasLicense_any_failure Ref.utc CONFIG (Ref.usersFrom 1 3)
              (Ref.user 4) (Ref.usersFrom 5 6) w
              [Ref.user 2] (Ref.tick (Ref.tick (Ref.tick w)))
              (probeCalls CONFIG (Ref.usersFrom 1 3))
              Sample.connectionReset
              (Ref.tick (Ref.tick (Ref.tick (Ref.tick w))))
              eq_refl eq_refl)
    as (_ & kept2 & w3 & t2 & Hpost & Hall & Hlog).
  exists w3. eexists. split; [|exact Hlog].
  assert (kept2 = [Ref.user 5; Ref.user 9]) as ->.
  { vm_compute in Hpost. by injection Hpost as <- _ _. }
  exact Hall.
Defined.

(** C1 as stated fails: a run in which the probe of candidate 4 fails in
    transport and a run in which it answers 404 complete alike with the same
    trace, whose log has no line about candidate 4 and no count of
    inconclusive probes. *)
Lemma inconclusive_probe_not_recorded :
  confirmedNotFound Sample.connectionReset = false
  /\ confirmedNotFound Ref.notFound = true
  /\ completion (auditInactiveEnterpriseUsers Ref.utc CONFIG 3
                   (Sample.tenCandidates Sample.connectionReset))
     = completion (auditInactiveEnterpriseUsers Ref.utc CONFIG 3
                     (Sample.tenCandidates Ref.notFound))
  /\ trace (auditInactiveEnterpriseUsers Ref.utc CONFIG 3
              (Sample.tenCandidates Sample.connectionReset))
     = trace (auditInactiveEnterpriseUsers Ref.utc CONFIG 3
                (Sample.tenCandidates Ref.notFound))
  /\ logged (trace (auditInactiveEnterpriseUsers Ref.utc CONFIG 3
                      (Sample.tenCandidates Sample.connectionReset)))
     = ["Auditing users inactive since: 2022-11-14T22:13:20.000Z";
        "Found 10 inactive users.";
        "Found 3 users with Target License and Inactive.";
        "Report generated: https://docs.google.com/spreadsheets/d/0"].
Proof. repeat (split; [vm_compute; reflexivity|]). vm_compute. reflexivity. Qed.

(** C5 as stated fails: at [inactivityDays = 0] a cutoff is returned, the
    clock reading itself, and the run goes on to call the directory. *)
Lemma getCutoffDate_accepts_zero_days :
  0 <= 0
  /\ getCutoffDate Ref.utc 0 Sample.idle
     = (Normal (Some Sample.t0), Sample.idle, [EvNow])
  /\ countOf isUsersList
       (trace (auditInactiveEnterpriseUsers Ref.utc (Sample.withDays 0) 3
                 Sample.idle)) = 1%nat.
Proof. split; [lia|]. split; vm_compute; reflexivity. Qed.

(** C5, amended, at [inactivityDays = -30] in UTC: the cutoff lies thirty
    days after the clock reading. *)
Lemma getCutoffDate_no_validation_witness :
  getCutoffDate Ref.utc (-30) Sample.idle
  = (Normal (Some 1702592000000), Sample.idle, [EvNow])
  /\ Sample.t0
     <= daysBefore (timeZone Ref.utc) (-30) (clock Ref.utc Sample.idle).
Proof.
  destruct (getCutoffDate_no_validation Ref.utc (-30) Sample.idle
              ltac:(lia)) as (Hcut & _ & Hlater & _).
  split.
  - rewrite Hcut. reflexivity.
  - exact (proj1 (proj2 (Hlater 0 eq_refl))).
Defined.

(** C6 as stated fails: at [inactivityDays = 1000000000] the shifted
    instant is out of the range of a [Date]; the cutoff is an invalid [Date]
    and the run ends by the [RangeError] of [toISOString]. *)
Lemma getCutoffDate_out_of_range :
  0 < 1000000000
  /\ getCutoffDate Ref.utc 1000000000 Sample.idle
     = (Normal None, Sample.idle, [EvNow])
  /\ completion (auditInactiveEnterpriseUsers Ref.utc
                   (Sample.withDays 1000000000) 3 Sample.idle)
     = Throw invalidTime.
Proof. split; [lia|]. split; vm_compute; reflexivity. Qed.

(** C6, amended, at [inactivityDays = 365] in UTC. *)
Lemma getCutoffDate_days_before_witness :
  getCutoffDate Ref.utc 365 Sample.idle
  = (Normal (Some (Sample.t0 - 365 * JsDate.msPerDay)), Sample.idle,
     [EvNow]).
Proof.
  refine (eq_trans
            (proj1 (getCutoffDate_days_before Ref.utc 365 Sample.idle _ _)) _).
  - lia.
  - vm_compute. discriminate.
  - reflexivity.
Defined.

(** C7 at three candidates, none licensed. *)
Lemma audit_no_matches_witness :
  completion (auditInactiveEnterpriseUsers Ref.utc CONFIG 3
                Sample.noneLicensed) = Normal tt
  /\ countOf isSheetEvent
       (trace (auditInactiveEnterpriseUsers Ref.utc CONFIG 3
                 Sample.noneLicensed)) = 0%nat
  /\ Ref.sheets (worldAfter (auditInactiveEnterpriseUsers Ref.utc CONFIG 3
                               Sample.noneLicensed)) = []
  /\ logged (trace (auditInactiveEnterpriseUsers Ref.utc CONFIG 3
                      Sample.noneLicensed))
     = ["Auditing users inactive since: 2022-11-14T22:13:20.000Z";
        "Found 3 inactive users.";
        "Found 0 users with Target License and Inactive.";
        "No matching users found."].
Proof.
  set (w1 := Ref.tick (Ref.withDirectory [] Sample.noneLicensed)).
  set (w2 := Ref.tick (Ref.tick (Ref.tick w1))).
  destruct (audit_no_matches Ref.utc CONFIG 3 Sample.noneLicensed
              Sample.cutoff (Ref.usersFrom 0 3) w1
              [EvUsersList (listParams (cutoffQuery Sample.cutoff) None)]
              w2 (probeCalls CONFIG (Ref.usersFrom 0 3))
              eq_refl eq_refl eq_refl) as (_ & Hrun & Hcount).
  rewrite Hrun. split; [reflexivity|]. split; [exact Hcount|].
  split; vm_compute; reflexivity.
Defined.

(** C8 as stated fails: the first row of the created sheet is not the
    header of the specification; two of its titles are spelt with spaces. *)
Lemma exportToSheet_header_differs :
  map (hd [])
      (Ref.sheets (worldAfter (exportToSheet Ref.utc
                                 [Sample.matchA; Sample.matchB] Sample.idle)))
  = [[CString "Name"; CString "Email"; CString "Last Login Time";
      CString "Creation Time"; CString "Suspended"]]
  /\ [CString "Name"; CString "Email"; CString "Last Login Time";
      CString "Creation Time"; CString "Suspended"] <> specHeaderRow.
Proof. split; [vm_compute; reflexivity|discriminate]. Qed.

(** C8, amended, at the two matches of the specification's example. *)
Lemma exportToSheet_artifact_witness :
  exists w',
    exportToSheet Ref.utc [Sample.matchA; Sample.matchB] Sample.idle =
    (Normal tt, w',
     [EvCreate "Inactive Enterprise Plus Users Audit";
      EvGetActiveSheet 0%nat;
      EvAppendRow 0%nat headerRow;
      EvSetValues 0%nat 2 1 2 5
        [userRow Sample.matchA; userRow Sample.matchB];
      EvGetUrl 0%nat;
      EvLog "Report generated: https://docs.google.com/spreadsheets/d/0"])
    /\ Ref.sheets w' =
       [[[CString "Name"; CString "Email"; CString "Last Login Time";
          CString "Creation Time"; CString "Suspended"];
         [CString "A"; CString "a@x.com"; CString "2022-01-01";
          CString "2020-01-01"; CBool false];
         [CString "B"; CString "b@x.com"; CUndefined;
          CString "2021-06-30"; CBool true]]].
Proof.
  exact (exportToSheet_artifact (JsDate.fixedOffset 0)
           [Sample.matchA; Sample.matchB] Sample.idle
           ltac:(discriminate) eq_refl eq_refl).
Defined.



(** The end-to-end example: of three inactive users one holds the licence;
    the report has the header and exactly one row. *)
Example audit_one_of_three :
  completion (auditInactiveEnterpriseUsers Ref.utc CONFIG 3
                Sample.oneOfThree) = Normal tt
  /\ Ref.sheets (worldAfter (auditInactiveEnterpriseUsers Ref.utc CONFIG 3
                               Sample.oneOfThree))
     = [[headerRow; userRow (Ref.user 1)]].
Proof. split; vm_compute; reflexivity. Qed.

(** Calendar days, not multiples of 24 hours: two days before noon of
    2023-03-27 in a zone that moved its clocks forward on the 26th is noon of
    the 25th there, 47 hours earlier. *)
Example getCutoffDate_across_offset_change :
  getCutoffDate (Ref.platform Sample.summerTime) 2 Sample.afterSwitch
  = (Normal (Some (1679911200000 - 47 * JsDate.msPerHour)),
     Sample.afterSwitch, [EvNow])
  /\ isoString (1679911200000 - 47 * JsDate.msPerHour)
     = "2023-03-25T11:00:00.000Z".
Proof. split; vm_compute; reflexivity. Qed.


(** * Further facts *)

Section Further.

Context {W : Type}.
Variable P : Platform W.

(** ** Every way the pagination can go *)

Lemma listLoop_cases fuel : forall q acc tok w,
  exists rs w',
    Pages P q w tok rs w'
    /\ (length rs <= fuel)%nat
    /\ LoopEnd P q acc tok rs w' (listLoop P fuel q acc tok w)
    /\ (completion (listLoop P fuel q acc tok w) = OutOfFuel ->
        length rs = fuel).
Proof.
  induction fuel as [|fuel IH]; intros q acc tok w.
  - exists [], w. repeat split; try constructor. 
  - destruct (Users_list P (listParams q tok) w) as [[r|e] w1] eqn:Hr.
    + destruct (truthy (nextPageToken r)) eqn:Htok.
      * destruct (IH q (acc ++ pageItems r) (nextPageToken r) w1)
          as (rs & w' & Hpages & Hlen & Hend & Hfuel).
        exists (r :: rs), w'.
        rewrite (listLoop_more P _ _ _ _ _ _ _ Hr Htok).
        split; [by econstructor|]. split; [simpl; lia|].
        split.
        -- destruct Hend as [|r' w2 Hr' Htok'|e w2 He]; simpl.
           ++ constructor.
           ++ unfold items. simpl. rewrite <- app_assoc.
              by apply (LastPage P q acc tok (r :: rs) w' r' w2).
           ++ unfold items. simpl. rewrite <- app_assoc.
              by apply (FailedPage P q acc tok (r :: rs) w' e w2).
        -- intros Hout. simpl. f_equal. apply Hfuel.
           unfold completion in *.
           destruct (listLoop P fuel q _ _ w1) as [[c w2] t2]. exact Hout.
      * exists [], w. rewrite (listLoop_last P _ _ _ _ _ _ _ Hr Htok).
        split; [constructor|]. split; [simpl; lia|]. split.
        -- pose proof (LastPage P q acc tok [] w r w1 Hr Htok) as H.
           simpl in H. unfold items in H. simpl in H.
           by rewrite app_nil_r in H.
        -- discriminate.
    + exists [], w. rewrite (listLoop_fail P _ _ _ _ _ _ _ Hr).
      split; [constructor|]. split; [simpl; lia|]. split.
      * pose proof (FailedPage P q acc tok [] w e w1 Hr) as H.
        simpl in H. unfold items in H. simpl in H.
        by rewrite app_nil_r in H.
      * discriminate.
Qed.


Lemma logged_requests q tok rs : logged (requests q tok rs) = [].
Proof. revert tok. induction rs; intros; simpl; auto. Qed.

Lemma fetchEvent_requests q tok rs :
  forallb fetchEvent (requests q tok rs) = true.
Proof. revert tok. induction rs; intros; simpl; auto. Qed.

Lemma LoopEnd_not_thrown q acc tok rs w' r e :
  LoopEnd P q acc tok rs w' r -> completion r <> Throw e.
Proof. by destruct 1. Qed.

Lemma requestTokens_app t1 t2 :
  requestTokens (t1 ++ t2) = requestTokens t1 ++ requestTokens t2.
Proof. unfold requestTokens. apply flat_map_app. Qed.

Lemma requestTokens_requests q tok rs :
  requestTokens (requests q tok rs) = tokenChain tok rs.
Proof.
  revert tok. induction rs as [|r rs IH]; intros tok; [reflexivity|].
  simpl. by rewrite <- IH.
Qed.

Lemma tokenChain_snoc tok rs r :
  tokenChain tok (rs ++ [r]) = tokenChain tok rs ++ [tokenAfter tok rs].
Proof.
  revert tok. induction rs as [|r' rs IH]; intros tok; [reflexivity|].
  simpl. by rewrite IH.
Qed.

(** X1.  Every run of [getInactiveUsers] on a valid cutoff is one of three:
    it is still paging when the fuel ends; or it received the pages [rs],
    each with a token, and then a last page without one, and returns the
    users of all of them; or it received the pages [rs] and the next request
    threw, and it returns the users of [rs] after logging the error.  The
    trace is one request per page; the first request carries no page token
    and each next one carries, as its [pageToken], the token of the
    response before it. *)
Theorem getInactiveUsers_outcomes fuel t w :
  exists rs w',
    Pages P (cutoffQuery t) w None rs w'
    /\ (length rs <= fuel)%nat
    /\ LoopEnd P (cutoffQuery t) [] None rs w'
               (getInactiveUsers P fuel (Some t) w)
    /\ ((completion (getInactiveUsers P fuel (Some t) w) = OutOfFuel
         /\ requestTokens (trace (getInactiveUsers P fuel (Some t) w))
            = tokenChain None rs)
        \/ ((exists us,
                completion (getInactiveUsers P fuel (Some t) w) = Normal us)
            /\ requestTokens (trace (getInactiveUsers P fuel (Some t) w))
               = tokenChain None rs ++ [tokenAfter None rs])).
Proof.
  rewrite getInactiveUsers_valid.
  destruct (listLoop_cases fuel (cutoffQuery t) [] None w)
    as (rs & w' & Hpages & Hlen & Hend & _).
  exists rs, w'. repeat (split; [done|]).
  destruct Hend as [|r w2 Hr Htok|e w2 He]; unfold completion, trace;
    cbn [fst snd].
  - left. split; [done|]. apply requestTokens_requests.
  - right. split; [by eexists|].
    by rewrite requestTokens_requests, tokenChain_snoc.
  - right. split; [by eexists|].
    rewrite requestTokens_app, requestTokens_requests. reflexivity.
Qed.

Lemma getInactiveUsers_shape fuel t w :
  ((exists us, completion (getInactiveUsers P fuel (Some t) w) = Normal us)
   \/ completion (getInactiveUsers P fuel (Some t) w) = OutOfFuel)
  /\ forallb fetchEvent (trace (getInactiveUsers P fuel (Some t) w)) = true
  /\ (logged (trace (getInactiveUsers P fuel (Some t) w)) = []
      \/ exists e us,
           logged (trace (getInactiveUsers P fuel (Some t) w)) = [errorLine e]
           /\ completion (getInactiveUsers P fuel (Some t) w) = Normal us).
Proof.
  rewrite !getInactiveUsers_valid.
  destruct (listLoop_cases fuel (cutoffQuery t) [] None w)
    as (rs & w' & _ & _ & Hend & _).
  destruct Hend as [|r w2 Hr Htok|e w2 He]; unfold completion, trace; simpl.
  - rewrite logged_requests, fetchEvent_requests. by repeat split; auto.
  - rewrite logged_requests, fetchEvent_requests.
    split; [left; by eexists|]. by split; auto.
  - rewrite logged_app, logged_requests, forallb_app, fetchEvent_requests.
    split; [left; by eexists|]. split; [done|]. right. by eexists _, _.
Qed.

(** X2.  [getInactiveUsers] on a valid cutoff never throws, whatever the
    directory does; it emits directory requests and log lines and nothing
    else; it logs at most one line, the error of a failed request, and if it
    logs that line it returns. *)
Theorem getInactiveUsers_absorbs_errors fuel t w :
  ((exists us, completion (getInactiveUsers P fuel (Some t) w) = Normal us)
   \/ completion (getInactiveUsers P fuel (Some t) w) = OutOfFuel)
  /\ forallb fetchEvent (trace (getInactiveUsers P fuel (Some t) w)) = true
  /\ (logged (trace (getInactiveUsers P fuel (Some t) w)) = []
      \/ exists e us,
           logged (trace (getInactiveUsers P fuel (Some t) w)) = [errorLine e]
           /\ completion (getInactiveUsers P fuel (Some t) w) = Normal us).
Proof. exact (getInactiveUsers_shape fuel t w). Qed.

(** X3.  The loop has no bound of its own: against a directory that answers
    every request with a next-page token, it never returns; whatever the
    fuel, all of it is spent on requests. *)
Theorem getInactiveUsers_endless fuel t w :
  (forall p w0, exists r w1,
      Users_list P p w0 = (Returns r, w1)
      /\ truthy (nextPageToken r) = true) ->
  completion (getInactiveUsers P fuel (Some t) w) = OutOfFuel
  /\ countOf isUsersList (trace (getInactiveUsers P fuel (Some t) w)) = fuel.
Proof.
  intros Hmore. rewrite getInactiveUsers_valid.
  generalize (@nil User) (@None string). revert w.
  induction fuel as [|fuel IH]; intros w acc tok.
  - by split.
  - destruct (Hmore (listParams (cutoffQuery t) tok) w)
      as (r & w1 & Hr & Htok).
    rewrite (listLoop_more P _ _ _ _ _ _ _ Hr Htok).
    destruct (IH w1 (acc ++ pageItems r) (nextPageToken r)) as [Hc Hn].
    unfold completion, trace in *.
    destruct (listLoop P fuel _ _ _ w1) as [[c w2] t2]. simpl in *.
    split; [done|]. unfold countOf in *. simpl. by rewrite Hn.
Qed.

(** X4.  Every directory request of [getInactiveUsers] asks for customer
    [my_customer], at most 500 results, the [domain_public] view and the
    query of the cutoff; the first request carries no page token. *)
Theorem getInactiveUsers_requests fuel t w :
  Forall (wellFormedRequest (cutoffQuery t))
         (trace (getInactiveUsers P fuel (Some t) w))
  /\ exists rest,
       trace (getInactiveUsers P (S fuel) (Some t) w) =
       EvUsersList (listParams (cutoffQuery t) None) :: rest.
Proof.
  split.
  - apply getInactiveUsers_Forall; [done|]. intros tok. by repeat split.
  - rewrite getInactiveUsers_valid. apply listLoop_first.
Qed.


(** ** The licence filter *)

(** X5.  The licence filter calls the licensing service exactly once per
    candidate, in candidate order, with the configured product and SKU and
    the candidate's primary email, and always returns. *)
Theorem Array_filter_probes_each_once cfg us w :
  trace (Array_filter (probe P cfg) us w) = probeCalls cfg us
  /\ length (trace (Array_filter (probe P cfg) us w)) = length us
  /\ exists kept,
       completion (Array_filter (probe P cfg) us w) = Normal kept.
Proof.
  destruct (Array_filter_probe P cfg us w) as (kept & w' & H & _).
  rewrite H. unfold trace, completion. simpl.
  split; [done|]. split; [|by exists kept].
  unfold probeCalls. by rewrite length_map.
Qed.

(** X6.  Against a licensing service whose answers do not change while the
    filter runs (the worlds it goes through satisfy [I], and under [I] the
    call returns for exactly the user ids that [holds] accepts), the filter
    returns the candidates whose user id holds the licence: what a pure
    [filter] gives. *)
Theorem Array_filter_pure cfg (I : W -> Prop) (holds : string -> bool) us w :
  I w ->
  (forall w0 u,
      I w0 ->
      I (snd (LicenseAssignments_get P (PRODUCT_ID cfg) (TARGET_SKU_ID cfg)
                                     u w0))
      /\ (holds u = true <->
          exists a,
            fst (LicenseAssignments_get P (PRODUCT_ID cfg)
                                        (TARGET_SKU_ID cfg) u w0)
            = Returns a)) ->
  completion (Array_filter (probe P cfg) us w)
  = Normal (List.filter (fun u => holds (primaryEmail u)) us).
Proof.
  intros Hw Hstable. revert w Hw.
  induction us as [|u us IH]; intros w Hw; [reflexivity|].
  destruct (Hstable w (primaryEmail u) Hw) as [Hnext Hholds].
  destruct (LicenseAssignments_get P (PRODUCT_ID cfg) (TARGET_SKU_ID cfg)
              (primaryEmail u) w) as [[a|e] w1] eqn:Hget;
    cbn [fst snd] in Hnext, Hholds.
  - specialize (IH w1 Hnext). unfold completion in IH.
    destruct (Array_filter (probe P cfg) us w1) as [[c w2] t2] eqn:Hrest.
    simpl in IH. subst c.
    rewrite (Array_filter_cons_keep (probe P cfg) u us w _ _ _ _ _
               (hasLicense_found P _ _ _ _ _ _ Hget) Hrest).
    cbn [filter List.filter].
    replace (holds (primaryEmail u)) with true
      by (symmetry; apply Hholds; by eexists).
    reflexivity.
  - specialize (IH w1 Hnext). unfold completion in IH.
    destruct (Array_filter (probe P cfg) us w1) as [[c w2] t2] eqn:Hrest.
    simpl in IH. subst c.
    rewrite (Array_filter_cons_drop (probe P cfg) u us w _ _ _ _ _
               (hasLicense_failed P _ _ _ _ _ _ Hget) Hrest).
    cbn [filter List.filter].
    destruct (holds (primaryEmail u)) eqn:Hh; [|reflexivity].
    destruct Hholds as [Hex _]. by destruct (Hex eq_refl).
Qed.

(** X7.  Filtering a concatenation is filtering the first part and then,
    from the world that leaves, the second: results and probes
    concatenate. *)
Theorem Array_filter_splits cfg pre post w :
  exists kept1 w1 kept2 w2,
    Array_filter (probe P cfg) pre w
    = (Normal kept1, w1, probeCalls cfg pre)
    /\ Array_filter (probe P cfg) post w1
       = (Normal kept2, w2, probeCalls cfg post)
    /\ Array_filter (probe P cfg) (pre ++ post) w
       = (Normal (kept1 ++ kept2), w2, probeCalls cfg (pre ++ post)).
Proof.
  destruct (Array_filter_probe P cfg pre w) as (kept1 & w1 & Hpre & _).
  destruct (Array_filter_probe P cfg post w1) as (kept2 & w2 & Hpost & _).
  exists kept1, w1, kept2, w2. split; [done|]. split; [done|].
  rewrite (Array_filter_app _ _ _ _ _ _ _ _ _ _ Hpre Hpost).
  unfold probeCalls. by rewrite map_app.
Qed.


(** ** The export *)

Lemma call_throws {A} ev (op : W -> Reply A * W) w e w1 :
  op w = (Throws e, w1) -> call ev op w = (Throw e, w1, [ev]).
Proof. intros H. unfold call. by rewrite H. Qed.

(** X8.  Called with no users, [exportToSheet] still creates a spreadsheet
    and appends the header row; it skips the bulk write, asks for the URL
    and logs it. *)
Theorem exportToSheet_no_users w ss w1 sheet w2 w3 url w4 :
  SpreadsheetApp_create P sheetTitle w = (Returns ss, w1) ->
  getActiveSheet P ss w1 = (Returns sheet, w2) ->
  appendRow P sheet headerRow w2 = (Returns tt, w3) ->
  getUrl P ss w3 = (Returns url, w4) ->
  exportToSheet P [] w =
  (Normal tt, w4,
   [EvCreate sheetTitle; EvGetActiveSheet ss; EvAppendRow sheet headerRow;
    EvGetUrl ss; EvLog (reportLine url)]).
Proof.
  intros Hcreate Hsheet Happend Hurl. unfold exportToSheet.
  rewrite (bind_normal _ _ _ _ _ _ (call_returns _ _ _ _ _ Hcreate)).
  rewrite (bind_normal _ _ _ _ _ _ (call_returns _ _ _ _ _ Hsheet)).
  rewrite (bind_normal _ _ _ _ _ _ (call_returns _ _ _ _ _ Happend)).
  change (0 <? Z.of_nat (length (map userRow []))) with false. cbv iota.
  rewrite (bind_normal _ _ w3 tt w3 [] eq_refl).
  rewrite (bind_normal _ _ _ _ _ _ (call_returns _ _ _ _ _ Hurl)).
  reflexivity.
Qed.

Lemma exportToSheet_log_cases users w :
  (exists rest,
      trace (exportToSheet P users w) = EvCreate sheetTitle :: rest)
  /\ ((exists url,
          completion (exportToSheet P users w) = Normal tt
          /\ logged (trace (exportToSheet P users w)) = [reportLine url])
      \/ (exists e,
             completion (exportToSheet P users w) = Throw e
             /\ logged (trace (exportToSheet P users w)) = [])).
Proof.
  unfold exportToSheet.
  destruct (SpreadsheetApp_create P sheetTitle w) as [[ss|e] w1] eqn:Hcreate;
    [|rewrite (bind_throw _ _ _ _ _ _ (call_throws _ _ _ _ _ Hcreate));
      split; [by eexists|right; by eexists]].
  rewrite (bind_normal _ _ _ _ _ _ (call_returns _ _ _ _ _ Hcreate)).
  destruct (getActiveSheet P ss w1) as [[sheet|e] w2] eqn:Hsheet;
    [|rewrite (bind_throw _ _ _ _ _ _ (call_throws _ _ _ _ _ Hsheet));
      split; [by eexists|right; by eexists]].
  rewrite (bind_normal _ _ _ _ _ _ (call_returns _ _ _ _ _ Hsheet)).
  destruct (appendRow P sheet headerRow w2) as [[[]|e] w3] eqn:Happend;
    [|rewrite (bind_throw _ _ _ _ _ _ (call_throws _ _ _ _ _ Happend));
      split; [by eexists|right; by eexists]].
  rewrite (bind_normal _ _ _ _ _ _ (call_returns _ _ _ _ _ Happend)).
  destruct (0 <? Z.of_nat (length (map userRow users))).
  - destruct (setValues P sheet 2 1 (Z.of_nat (length (map userRow users)))
                (firstRowLength (map userRow users)) (map userRow users) w3)
      as [[[]|e] w4] eqn:Hwrite;
      [|rewrite (bind_throw _ _ _ _ _ _ (call_throws _ _ _ _ _ Hwrite));
        split; [by eexists|right; by eexists]].
    rewrite (bind_normal _ _ _ _ _ _ (call_returns _ _ _ _ _ Hwrite)).
    destruct (getUrl P ss w4) as [[url|e] w5] eqn:Hurl;
      [|rewrite (bind_throw _ _ _ _ _ _ (call_throws _ _ _ _ _ Hurl));
        split; [by eexists|right; by eexists]].
    rewrite (bind_normal _ _ _ _ _ _ (call_returns _ _ _ _ _ Hurl)).
    split; [by eexists|left; by exists url].
  - rewrite (bind_normal _ _ w3 tt w3 [] eq_refl).
    destruct (getUrl P ss w3) as [[url|e] w5] eqn:Hurl;
      [|rewrite (bind_throw _ _ _ _ _ _ (call_throws _ _ _ _ _ Hurl));
        split; [by eexists|right; by eexists]].
    rewrite (bind_normal _ _ _ _ _ _ (call_returns _ _ _ _ _ Hurl)).
    split; [by eexists|left; by exists url].
Qed.

(** X9.  Every export starts by creating a spreadsheet with the fixed
    title.  It logs the report line exactly when it completes: a completed
    export logged one line, the URL the spreadsheet service gave; an export
    that threw logged nothing. *)
Theorem exportToSheet_log users w :
  (exists rest,
      trace (exportToSheet P users w) = EvCreate sheetTitle :: rest)
  /\ ((exists url,
          completion (exportToSheet P users w) = Normal tt
          /\ logged (trace (exportToSheet P users w)) = [reportLine url])
      \/ (exists e,
             completion (exportToSheet P users w) = Throw e
             /\ logged (trace (exportToSheet P users w)) = [])).
Proof. exact (exportToSheet_log_cases users w). Qed.

(** X10.  If the bulk write throws, the export ends by that throw after the
    spreadsheet was created and the header row appended: the URL is neither
    asked for nor logged. *)
Theorem exportToSheet_write_fails u us w ss w1 sheet w2 w3 e w4 :
  SpreadsheetApp_create P sheetTitle w = (Returns ss, w1) ->
  getActiveSheet P ss w1 = (Returns sheet, w2) ->
  appendRow P sheet headerRow w2 = (Returns tt, w3) ->
  setValues P sheet 2 1 (Z.of_nat (length (u :: us))) 5
            (map userRow (u :: us)) w3 = (Throws e, w4) ->
  exportToSheet P (u :: us) w =
  (Throw e, w4,
   [EvCreate sheetTitle; EvGetActiveSheet ss; EvAppendRow sheet headerRow;
    EvSetValues sheet 2 1 (Z.of_nat (length (u :: us))) 5
                (map userRow (u :: us))]).
Proof.
  intros Hcreate Hsheet Happend Hwrite. unfold exportToSheet.
  rewrite (bind_normal _ _ _ _ _ _ (call_returns _ _ _ _ _ Hcreate)).
  rewrite (bind_normal _ _ _ _ _ _ (call_returns _ _ _ _ _ Hsheet)).
  rewrite (bind_normal _ _ _ _ _ _ (call_returns _ _ _ _ _ Happend)).
  replace (0 <? Z.of_nat (length (map userRow (u :: us)))) with true
    by (symmetry; apply Z.ltb_lt; simpl; lia).
  rewrite length_map.
  change (firstRowLength (map userRow (u :: us))) with 5.
  rewrite (bind_throw _ _ _ _ _ _ (call_throws _ _ _ _ _ Hwrite)).
  reflexivity.
Qed.

(** X11.  The range of the bulk write always fits its data: it starts at
    row 2, column 1, is five columns wide and as many rows high as there are
    users (at least one), and every row written has five cells. *)
Theorem exportToSheet_range users w :
  Forall rangeFitsData (trace (exportToSheet P users w)).
Proof.
  unfold exportToSheet.
  apply bind_Forall; [by apply call_Forall|]. intros ss w1.
  apply bind_Forall; [by apply call_Forall|]. intros sheet w2.
  apply bind_Forall; [by apply call_Forall|]. intros _ w3.
  apply bind_Forall.
  - destruct users as [|u us]; [constructor|].
    replace (0 <? Z.of_nat (length (map userRow (u :: us)))) with true
      by (symmetry; apply Z.ltb_lt; simpl; lia).
    apply call_Forall. simpl. repeat split; try lia.
    constructor; [reflexivity|].
    clear. induction us as [|x us IH]; simpl; constructor; auto.
  - intros _ w4. apply bind_Forall; [by apply call_Forall|].
    intros url w5. by repeat constructor.
Qed.


(** ** The run *)

Lemma audit_invalid_cutoff cfg fuel w :
  JsDate.TimeClip
    (daysBefore (timeZone P) (INACTIVITY_DAYS cfg) (clock P w)) = None ->
  auditInactiveEnterpriseUsers P cfg fuel w = (Throw invalidTime, w, [EvNow]).
Proof.
  intros Ht. rewrite audit_unfold.
  rewrite (bind_normal _ _ _ _ _ _ (getCutoffDate_eq P _ _)), Ht.
  reflexivity.
Qed.

Lemma audit_still_paging cfg fuel w t w1 t1 :
  JsDate.TimeClip
    (daysBefore (timeZone P) (INACTIVITY_DAYS cfg) (clock P w)) = Some t ->
  getInactiveUsers P fuel (Some t) w = (OutOfFuel, w1, t1) ->
  completion (auditInactiveEnterpriseUsers P cfg fuel w) = OutOfFuel.
Proof.
  intros Ht Hfetch. rewrite audit_unfold.
  rewrite (bind_normal _ _ _ _ _ _ (getCutoffDate_eq P _ _)), Ht.
  rewrite (bind_normal _ _ _ _ _ _ (toISOString_valid _ _)), after_nil.
  rewrite (bind_normal _ _ w tt w [EvLog _] eq_refl).
  unfold bind. rewrite Hfetch. reflexivity.
Qed.

Lemma audit_steps cfg fuel w t :
  JsDate.TimeClip
    (daysBefore (timeZone P) (INACTIVITY_DAYS cfg) (clock P w)) = Some t ->
  completion (auditInactiveEnterpriseUsers P cfg fuel w) = OutOfFuel
  \/ exists us w1 t1 ts w2,
       getInactiveUsers P fuel (Some t) w = (Normal us, w1, t1)
       /\ Array_filter (probe P cfg) us w1
          = (Normal ts, w2, probeCalls cfg us)
       /\ sublist ts us
       /\ auditInactiveEnterpriseUsers P cfg fuel w =
          after ([EvNow; EvLog (auditingLine t)] ++ t1
                 ++ [EvLog (foundInactive us)] ++ probeCalls cfg us
                 ++ [EvLog (foundTarget ts)])
                (exportStep P ts w2).
Proof.
  intros Ht.
  destruct (getInactiveUsers P fuel (Some t) w) as [[[us|e|] w1] t1]
    eqn:Hfetch.
  - right.
    destruct (Array_filter_probe P cfg us w1) as (ts & w2 & Hfilter & Hsub).
    exists us, w1, t1, ts, w2. repeat (split; [done|]).
    rewrite (audit_fetched P _ _ _ _ _ _ _ Ht Hfetch).
    rewrite (filterAndExport_filtered P _ _ _ _ _ _ Hfilter).
    by rewrite after_after, <- !app_assoc.
  - destruct (getInactiveUsers_shape fuel t w) as [[[us H]|H] _];
      rewrite Hfetch in H; discriminate.
  - left. by apply (audit_still_paging cfg fuel w t w1 t1).
Qed.

(** X12.  A run with a valid cutoff that is not still paging is the fetch,
    then one probe per fetched user, then step 3 on the matched users, with
    the two count lines in between; the matched users are a subsequence of
    the fetched ones, and the run completes as step 3 does. *)
Theorem audit_pipeline cfg fuel w t :
  JsDate.TimeClip
    (daysBefore (timeZone P) (INACTIVITY_DAYS cfg) (clock P w)) = Some t ->
  completion (auditInactiveEnterpriseUsers P cfg fuel w) = OutOfFuel
  \/ exists us w1 t1 ts w2,
       getInactiveUsers P fuel (Some t) w = (Normal us, w1, t1)
       /\ Array_filter (probe P cfg) us w1
          = (Normal ts, w2, probeCalls cfg us)
       /\ sublist ts us
       /\ auditInactiveEnterpriseUsers P cfg fuel w =
          after ([EvNow; EvLog (auditingLine t)] ++ t1
                 ++ [EvLog (foundInactive us)] ++ probeCalls cfg us
                 ++ [EvLog (foundTarget ts)])
                (exportStep P ts w2).
Proof. exact (audit_steps cfg fuel w t). Qed.

Lemma exportStep_throws ts w e :
  completion (exportStep P ts w) = Throw e ->
  In (EvCreate sheetTitle) (trace (exportStep P ts w)).
Proof.
  unfold exportStep. destruct (0 <? Z.of_nat (length ts)); [|discriminate].
  intros _.
  destruct (exportToSheet_log_cases ts w) as [[rest ->] _]. by left.
Qed.

(** X13.  A run throws only in two ways: by the [RangeError] of an invalid
    cutoff, before any call to a service, or from the export, after the
    spreadsheet service was asked to create the report.  No failure of the
    directory or of the licensing service ends a run. *)
Theorem audit_throws cfg fuel w e :
  completion (auditInactiveEnterpriseUsers P cfg fuel w) = Throw e ->
  (e = invalidTime
   /\ auditInactiveEnterpriseUsers P cfg fuel w = (Throw e, w, [EvNow]))
  \/ In (EvCreate sheetTitle)
        (trace (auditInactiveEnterpriseUsers P cfg fuel w)).
Proof.
  intros Hthrow.
  destruct (JsDate.TimeClip
              (daysBefore (timeZone P) (INACTIVITY_DAYS cfg) (clock P w)))
    as [t|] eqn:Ht.
  - right. destruct (audit_steps cfg fuel w t Ht)
      as [Hout|(us & w1 & t1 & ts & w2 & _ & _ & _ & Hrun)].
    + rewrite Hout in Hthrow. discriminate.
    + rewrite Hrun in Hthrow |- *. rewrite trace_after.
      apply in_or_app. right. apply (exportStep_throws ts w2 e).
      unfold completion, after in *.
      by destruct (exportStep P ts w2) as [[c w3] t3].
  - left. rewrite (audit_invalid_cutoff cfg fuel w Ht) in Hthrow |- *.
    by injection Hthrow as <-.
Qed.

(** X14.  If the first page request fails, the run completes normally with
    no candidate: it logs the error, two zero counts and the no-match line,
    and calls neither the licensing service nor the spreadsheet service. *)
Theorem audit_first_page_fails cfg fuel w t e w1 :
  JsDate.TimeClip
    (daysBefore (timeZone P) (INACTIVITY_DAYS cfg) (clock P w)) = Some t ->
  Users_list P (listParams (cutoffQuery t) None) w = (Throws e, w1) ->
  auditInactiveEnterpriseUsers P cfg (S fuel) w =
  (Normal tt, w1,
   [EvNow; EvLog (auditingLine t);
    EvUsersList (listParams (cutoffQuery t) None); EvLog (errorLine e);
    EvLog "Found 0 inactive users.";
    EvLog "Found 0 users with Target License and Inactive.";
    EvLog "No matching users found."]).
Proof.
  intros Ht Hfail.
  assert (getInactiveUsers P (S fuel) (Some t) w =
          (Normal [], w1,
           [EvUsersList (listParams (cutoffQuery t) None);
            EvLog (errorLine e)])) as Hfetch.
  { rewrite getInactiveUsers_valid.
    by rewrite (listLoop_fail P _ _ _ _ _ _ _ Hfail). }
  rewrite (audit_fetched P _ _ _ _ _ _ _ Ht Hfetch).
  rewrite (filterAndExport_filtered P cfg [] w1 [] w1 [] eq_refl).
  reflexivity.
Qed.


(** ** The cutoff in a zone with a fixed offset *)

(** X16.  In a zone with a fixed offset from UTC, the cutoff is the clock
    reading less [daysAgo] times 24 hours (an invalid date if that is out of
    range), for every [daysAgo]. *)
Theorem getCutoffDate_fixedOffset off n w :
  timeZone P = JsDate.fixedOffset off ->
  getCutoffDate P n w =
  (Normal (JsDate.TimeClip (clock P w - n * JsDate.msPerDay)), w, [EvNow]).
Proof.
  intros Hzone. by rewrite getCutoffDate_eq, Hzone, daysBefore_fixedOffset.
Qed.

End Further.

(** ** The helper functions *)

(** X17.  [checkUserLicense] never throws and never looks at the user: it
    asks for the assignments of [Google-Apps] for [my_customer] whatever the
    email, and logs one line, the email echoed if the listing returned and
    the error's message if it threw. *)
Theorem checkUserLicense_outcome {W}
    (listForProduct :
       string -> string -> W -> Reply (list LicenseAssignment) * W)
    userEmail w :
  checkUserLicense listForProduct userEmail w =
  (Normal tt,
   snd (listForProduct "Google-Apps" "my_customer" w),
   [EvLog match fst (listForProduct "Google-Apps" "my_customer" w) with
          | Returns _ => "Checking licenses for " +++ userEmail +++ "..."
          | Throws e => message e
          end]).
Proof.
  unfold checkUserLicense, tryCatch, bind, unrecorded, Logger_log.
  by destruct (listForProduct "Google-Apps" "my_customer" w) as [[a|e] w1].
Qed.

Lemma listAllSkus_outcome {W} (w : W) :
  exists line1 line2,
    listAllSkus w = (Normal tt, w, [EvLog line1; EvLog line2]).
Proof. by eexists _, _. Qed.

(** ** The SKU catalog *)

(** X18.  Every entry of [SKU_CATALOG] is what a lookup of its name under
    its product gives (no name is listed twice), and its SKU id is a string
    of digits. *)
Theorem SKU_CATALOG_lookup productId name sku :
  In (name, sku) (catalogEntries productId) ->
  catalogSku productId name = Some sku /\ allDigits sku = true.
Proof.
  intros Hin.
  assert (forallb (resolves productId) (catalogEntries productId) = true)
    as Hall.
  { destruct (String.eqb_spec "Google-Apps" productId) as [<-|Hother].
    - vm_compute. reflexivity.
    - unfold catalogEntries, SKU_CATALOG. cbn [property].
      apply String.eqb_neq in Hother. by rewrite Hother. }
  pose proof (proj1 (List.forallb_forall _ _) Hall (name, sku) Hin) as H.
  unfold resolves in H. simpl in H.
  apply andb_true_iff in H. destruct H as [H1 H2]. split; [|exact H2].
  destruct (catalogSku productId name) as [sku'|]; [|discriminate].
  apply String.eqb_eq in H1. by subst.
Qed.

(** ** The date part of the cutoff *)

Lemma beforeT_app s1 s2 :
  hasNoT s1 = true ->
  JsString.beforeT (s1 +++ s2) = s1 +++ JsString.beforeT s2.
Proof.
  induction s1 as [|c s1 IH]; simpl; [done|].
  intros H. apply andb_true_iff in H. destruct H as [Hc Hrest].
  apply negb_true_iff in Hc. rewrite Hc. by rewrite IH.
Qed.

Lemma digitChar_noT d :
  0 <= d < 10 -> Ascii.eqb (JsString.digitChar d) "T"%char = false.
Proof.
  intros Hd.
  assert (d = 0 \/ d = 1 \/ d = 2 \/ d = 3 \/ d = 4 \/ d = 5 \/ d = 6
          \/ d = 7 \/ d = 8 \/ d = 9) as Hcase by lia.
  repeat destruct Hcase as [->|Hcase]; try subst d; reflexivity.
Qed.

Lemma hasNoT_padDigits width : forall n acc,
  hasNoT acc = true -> hasNoT (JsString.padDigits width n acc) = true.
Proof.
  induction width as [|width IH]; intros n acc Hacc; simpl; [done|].
  apply IH. unfold hasNoT in *. cbn [list_ascii_of_string forallb].
  rewrite Hacc, digitChar_noT; [done|].
  apply Z.mod_pos_bound. lia.
Qed.

Lemma length_padDigits width : forall n acc,
  String.length (JsString.padDigits width n acc)
  = (width + String.length acc)%nat.
Proof.
  induction width as [|width IH]; intros n acc; simpl; [done|].
  rewrite IH. simpl. lia.
Qed.

Lemma hasNoT_app s1 s2 :
  hasNoT s1 = true -> hasNoT s2 = true -> hasNoT (s1 +++ s2) = true.
Proof.
  intros H1 H2. induction s1 as [|c s1 IH]; [done|].
  unfold hasNoT in *.
  cbn [String.append list_ascii_of_string forallb] in *.
  apply andb_true_iff in H1. destruct H1 as [Hc Hrest].
  by rewrite Hc, IH.
Qed.

Lemma length_append s1 s2 :
  String.length (s1 +++ s2) = (String.length s1 + String.length s2)%nat.
Proof. induction s1 as [|c s1 IH]; simpl; [done|]. by rewrite IH. Qed.

Lemma append_empty s : s +++ "" = s.
Proof. induction s as [|c s IH]; simpl; [done|]. by rewrite IH. Qed.

Lemma append_assoc s1 s2 s3 : (s1 +++ s2) +++ s3 = s1 +++ s2 +++ s3.
Proof. induction s1 as [|c s1 IH]; simpl; [done|]. by rewrite IH. Qed.

Lemma hasNoT_isoYear y : hasNoT (isoYear y) = true.
Proof.
  unfold isoYear, JsString.pad.
  destruct ((0 <=? y) && (y <=? 9999)); [by apply hasNoT_padDigits|].
  apply hasNoT_app; [by destruct (y <? 0)|by apply hasNoT_padDigits].
Qed.

(** X19.  [formattedDate], the part of the cutoff's ISO string before the
    first [T], is its date part [YYYY-MM-DD]: ten characters when the year
    is within 0..9999, thirteen with a signed six-digit year. *)
Theorem formattedDate_is_date t :
  JsString.beforeT (isoString t) = isoDate t
  /\ String.length (isoDate t)
     = if (0 <=? JsDate.YearFromTime t) && (JsDate.YearFromTime t <=? 9999)
       then 10%nat else 13%nat.
Proof.
  split.
  - unfold isoString. fold (isoYear (JsDate.YearFromTime t)).
    rewrite beforeT_app by apply hasNoT_isoYear.
    rewrite (beforeT_app "-") by reflexivity.
    rewrite beforeT_app by (by apply hasNoT_padDigits).
    rewrite (beforeT_app "-") by reflexivity.
    rewrite beforeT_app by (by apply hasNoT_padDigits).
    unfold isoDate. simpl JsString.beforeT. by rewrite append_empty.
  - unfold isoDate, isoYear, JsString.pad.
    destruct ((0 <=? JsDate.YearFromTime t)
              && (JsDate.YearFromTime t <=? 9999)).
    + rewrite !length_append, !length_padDigits. reflexivity.
    + rewrite !length_append, !length_padDigits.
      by destruct (JsDate.YearFromTime t <? 0).
Qed.

(** ** The further facts at sample worlds *)

(** X3 at a directory that always hands out a token, with fuel for 25
    requests. *)
Lemma getInactiveUsers_endless_witness :
  completion (getInactiveUsers Sample2.endless 25 (Some Sample.cutoff) 0%nat)
  = OutOfFuel
  /\ countOf isUsersList
       (trace (getInactiveUsers Sample2.endless 25 (Some Sample.cutoff)
                                0%nat)) = 25%nat.
Proof.
  apply (getInactiveUsers_endless Sample2.endless 25 Sample.cutoff 0%nat).
  intros p n. eexists _, _. split; reflexivity.
Defined.

(** X6 at ten candidates against the reference licensing table: 2, 5 and
    9 are kept. *)
Lemma Array_filter_pure_witness :
  completion (Array_filter (probe Ref.utc CONFIG) (Ref.usersFrom 1 10)
                (Sample.tenCandidates Sample.connectionReset))
  = Normal [Ref.user 2; Ref.user 5; Ref.user 9].
Proof.
  set (w := Sample.tenCandidates Sample.connectionReset).
  rewrite (Array_filter_pure Ref.utc CONFIG
             (fun w0 => Ref.assignments w0 = Ref.assignments w)
             (Sample2.holds w) (Ref.usersFrom 1 10) w eq_refl).
  - vm_compute. reflexivity.
  - intros w0 u Hw0. split; [exact Hw0|].
    unfold Sample2.holds. rewrite <- Hw0.
    change (fst (LicenseAssignments_get Ref.utc (PRODUCT_ID CONFIG)
                   (TARGET_SKU_ID CONFIG) u w0))
      with (Ref.lookupAssignment u (Ref.assignments w0)).
    destruct (Ref.lookupAssignment u (Ref.assignments w0)) as [a|e].
    + split; [by exists a|done].
    + split; [done|]. intros [a Ha]. discriminate.
Defined.

(** X8 on the reference runtime: a spreadsheet with the header row alone. *)
Lemma exportToSheet_no_users_witness :
  exists w',
    exportToSheet Ref.utc [] Sample.idle =
    (Normal tt, w',
     [EvCreate sheetTitle; EvGetActiveSheet 0%nat;
      EvAppendRow 0%nat headerRow; EvGetUrl 0%nat;
      EvLog (reportLine (Ref.urlOf 0%nat))])
    /\ Ref.sheets w' = [[headerRow]].
Proof.
  eexists. split.
  - eapply (exportToSheet_no_users Ref.utc Sample.idle); reflexivity.
  - reflexivity.
Defined.

(** X10 on sheets that refuse the bulk write: a spreadsheet with the header
    row alone is left behind. *)
Lemma exportToSheet_write_fails_witness :
  exists w',
    exportToSheet Sample2.noBulkWrite [Sample.matchA; Sample.matchB]
                  Sample.idle =
    (Throw Sample.quotaExceeded, w',
     [EvCreate sheetTitle; EvGetActiveSheet 0%nat;
      EvAppendRow 0%nat headerRow;
      EvSetValues 0%nat 2 1 2 5
                  [userRow Sample.matchA; userRow Sample.matchB]])
    /\ Ref.sheets w' = [[headerRow]].
Proof.
  eexists. split.
  - eapply (exportToSheet_write_fails Sample2.noBulkWrite Sample.matchA
              [Sample.matchB] Sample.idle); reflexivity.
  - reflexivity.
Defined.

(** X12 at three candidates of which one holds the licence. *)
Lemma audit_pipeline_witness :
  completion (auditInactiveEnterpriseUsers Ref.utc CONFIG 3
                Sample.oneOfThree) = OutOfFuel
  \/ exists us w1 t1 ts w2,
       getInactiveUsers Ref.utc 3 (Some Sample.cutoff) Sample.oneOfThree
       = (Normal us, w1, t1)
       /\ Array_filter (probe Ref.utc CONFIG) us w1
          = (Normal ts, w2, probeCalls CONFIG us)
       /\ sublist ts us
       /\ auditInactiveEnterpriseUsers Ref.utc CONFIG 3 Sample.oneOfThree =
          after ([EvNow; EvLog (auditingLine Sample.cutoff)] ++ t1
                 ++ [EvLog (foundInactive us)] ++ probeCalls CONFIG us
                 ++ [EvLog (foundTarget ts)])
                (exportStep Ref.utc ts w2).
Proof.
  exact (audit_pipeline Ref.utc CONFIG 3 Sample.oneOfThree Sample.cutoff
           eq_refl).
Defined.

(** X13 at a run whose export fails to create the spreadsheet. *)
Lemma audit_throws_witness :
  (Sample.quotaExceeded = invalidTime
   /\ auditInactiveEnterpriseUsers Ref.utc CONFIG 3 (Sample.exportFails 0)
      = (Throw Sample.quotaExceeded, Sample.exportFails 0, [EvNow]))
  \/ In (EvCreate sheetTitle)
        (trace (auditInactiveEnterpriseUsers Ref.utc CONFIG 3
                  (Sample.exportFails 0))).
Proof.
  apply (audit_throws Ref.utc CONFIG 3 (Sample.exportFails 0)
           Sample.quotaExceeded).
  vm_compute. reflexivity.
Defined.

(** X14 at a directory that is not available. *)
Lemma audit_first_page_fails_witness :
  auditInactiveEnterpriseUsers Ref.utc CONFIG 2 Sample.idle =
  (Normal tt, Ref.tick Sample.idle,
   [EvNow; EvLog (auditingLine Sample.cutoff);
    EvUsersList (listParams (cutoffQuery Sample.cutoff) None);
    EvLog "Error listing users: Service unavailable";
    EvLog "Found 0 inactive users.";
    EvLog "Found 0 users with Target License and Inactive.";
    EvLog "No matching users found."]).
Proof.
  exact (audit_first_page_fails Ref.utc CONFIG 1 Sample.idle Sample.cutoff
           (Ref.transportError "Service unavailable") (Ref.tick Sample.idle)
           eq_refl eq_refl).
Defined.


(** X16 in UTC, at 365 days. *)
Lemma getCutoffDate_fixedOffset_witness :
  getCutoffDate Ref.utc 365 Sample.idle =
  (Normal (Some Sample.cutoff), Sample.idle, [EvNow]).
Proof.
  exact (getCutoffDate_fixedOffset Ref.utc 0 365 Sample.idle eq_refl).
Defined.

(** X18 at the entry the configuration points to: the configured SKU is
    the catalog's Enterprise Plus. *)
Lemma SKU_CATALOG_lookup_witness :
  catalogSku (PRODUCT_ID CONFIG) "Enterprise Plus"
  = Some (TARGET_SKU_ID CONFIG)
  /\ allDigits (TARGET_SKU_ID CONFIG) = true.
Proof.
  apply (SKU_CATALOG_lookup "Google-Apps" "Enterprise Plus" "1010020020").
  by left.
Defined.

(** Two readings next to a change of the clocks.  One day before 02:30 of
    2023-03-27 would read 02:30 of the 26th, which the zone skips: the
    cutoff reads 03:30 of the 26th, 23 hours before the reading.  And zero
    days before the second 02:30 of 2023-10-29 is the first one, an hour
    before the reading. *)
Example getCutoffDate_skipped_hour :
  getCutoffDate (Ref.platform Sample.summerTime) 1
                Sample2.dayAfterSkippedHour
  = (Normal (Some (1679877000000 - 23 * JsDate.msPerHour)),
     Sample2.dayAfterSkippedHour, [EvNow]).
Proof. vm_compute. reflexivity. Qed.

Example getCutoffDate_repeated_hour :
  getCutoffDate (Ref.platform Sample2.winterTime) 0 Sample2.repeatedHour
  = (Normal (Some (1698543000000 - JsDate.msPerHour)),
     Sample2.repeatedHour, [EvNow]).
Proof. vm_compute. reflexivity. Qed.
